(** * pynamixel.config: the configuration store and its format loaders

    A shallow embedding of [src/pynamixel/config.py] and the properties
    its specification states about it.

    The Python objects are modelled as what they are at run time: an
    instance is its [__dict__], a finite map from attribute names to
    values, and the names the class bodies write with two leading
    underscores appear here the way the interpreter stores them, mangled
    with the name of the class whose body contains the code.  Methods
    that mutate an object or the file system are state transformers that
    return either a value or a raised exception together with the state
    reached at that point, so that what an aborted call has already
    changed stays visible. *)

From stdpp Require Import gmap strings list fin_maps.
From Stdlib Require Import ZArith Ascii.

Set Warnings "-register-all".

(** ** Python values, exceptions and builtins *)

Module Py.

(** The two concrete subclasses of [ConfigLoaderBase]. *)
Inductive loader_kind := Yaml | Json.

(** Values.  A loader instance is a reference [VLoader k l]: its class
    and the location of its mutable attributes in the heap.  [VDict] is
    a dict with string keys (what a JSON object decodes to, and what
    attribute access can name); [VMethod] is a bound method of the store
    and [VClass] a class object, neither of which the model looks
    into. *)
Inductive pyval :=
| VNone
| VBool (b : bool)
| VInt (n : Z)
| VStr (s : string)
| VPath (s : string)
| VList (l : list pyval)
| VDict (m : gmap string pyval)
| VLoader (k : loader_kind) (l : nat)
| VMethod (name : string)
| VClass (name : string).

(** Exception classes; every one of them derives from [Exception].
    [LibraryError] stands for whatever the json and yaml libraries raise.
    Exceptions raised by the interpreter itself carry an empty message:
    only the messages written in the source are modelled. *)
Inductive exn_class :=
| AssertionError | ValueError | FileNotFoundError | AttributeError
| TypeError | KeyError | RecursionError | OSError | LibraryError.

Record exn := Exn { exn_class_of : exn_class; exn_msg : string }.

Inductive outcome (A : Type) :=
| Ok (a : A)
| Raise (e : exn).
Arguments Ok {A} a.
Arguments Raise {A} e.

Definition is_ok {A} (r : outcome A) : bool :=
  match r with Ok _ => true | Raise _ => false end.

Definition raises {A} (r : outcome A) (c : exn_class) : Prop :=
  ∃ msg, r = Raise (Exn c msg).

(** Pure computations that may raise. *)
Definition obind {A B} (r : outcome A) (f : A → outcome B) : outcome B :=
  match r with Ok a => f a | Raise e => Raise e end.

(** Computations over a mutable state [S]: the state is returned also
    when an exception is raised. *)
Definition M (S A : Type) : Type := S → outcome A * S.

Definition ret {S A} (a : A) : M S A := λ s, (Ok a, s).
Definition raise {S A} (e : exn) : M S A := λ s, (Raise e, s).
Definition bind {S A B} (m : M S A) (f : A → M S B) : M S B :=
  λ s, match m s with
       | (Ok a, s') => f a s'
       | (Raise e, s') => (Raise e, s')
       end.
Definition pure {S A} (r : outcome A) : M S A := λ s, (r, s).
Definition get {S} : M S S := λ s, (Ok s, s).
Definition put {S} (s : S) : M S unit := λ _, (Ok tt, s).

(** [try: m except Exception as e: h e] *)
Definition try_except {S A} (m : M S A) (h : exn → M S A) : M S A :=
  λ s, match m s with
       | (Ok a, s') => (Ok a, s')
       | (Raise e, s') => h e s'
       end.

(** [assert c, msg] *)
Definition assert {S} (c : bool) (msg : string) : M S unit :=
  if c then ret tt else raise (Exn AssertionError msg).

Declare Scope py_scope.
Delimit Scope py_scope with py.
Notation "'let!' x ':=' m 'in' k" := (bind m (λ x, k))
  (at level 10, x name, m at level 100, k at level 200) : py_scope.
Notation "m ';;' k" := (bind m (λ _, k))
  (at level 100, k at level 200, right associativity) : py_scope.
Notation "'let?' x ':=' r 'in' k" := (obind r (λ x, k))
  (at level 10, x name, r at level 100, k at level 200) : py_scope.

(** [x is None] *)
Definition is_none (v : pyval) : bool :=
  match v with VNone => true | _ => false end.

(** [isinstance(x, (str, Path))] *)
Definition is_str_or_path (v : pyval) : bool :=
  match v with VStr _ | VPath _ => true | _ => false end.

(** [isinstance(x, str)] *)
Definition is_str (v : pyval) : bool :=
  match v with VStr _ => true | _ => false end.

(** [isinstance(x, dict)] *)
Definition is_dict (v : pyval) : bool :=
  match v with VDict _ => true | _ => false end.

(** [isinstance(x, ConfigLoaderBase)] *)
Definition is_loader (v : pyval) : bool :=
  match v with VLoader _ _ => true | _ => false end.

(** Truth value of an object, as [or], [not] and [if] test it. *)
Definition truthy (v : pyval) : bool :=
  match v with
  | VNone => false
  | VBool b => b
  | VInt n => negb (n =? 0)%Z
  | VStr s => negb (String.eqb s EmptyString)
  | VPath _ => true
  | VList l => negb (Nat.eqb (length l) 0)
  | VDict m => negb (Nat.eqb (size m) 0)
  | VLoader _ _ => true
  | VMethod _ => true
  | VClass _ => true
  end.

(** [a or b]: [b] is evaluated only when [a] is false. *)
Definition py_or {S} (a : pyval) (b : M S pyval) : M S pyval :=
  if truthy a then ret a else b.

(** The text of a path-like value, as [open], [os.path.exists] and an
    f-string use it. *)
Definition path_text (v : pyval) : option string :=
  match v with VStr s | VPath s => Some s | _ => None end.

(** *** Strings *)

(** Name mangling: [__attr] written inside the body of class [cls]. *)
Definition mangle (cls attr : string) : string := "_" +:+ cls +:+ attr.

Definition lower_ascii (c : ascii) : ascii :=
  let n := nat_of_ascii c in
  if (65 <=? n) && (n <=? 90) then ascii_of_nat (n + 32) else c.

(** [str.lower] on ASCII text *)
Fixpoint str_lower (s : string) : string :=
  match s with
  | EmptyString => EmptyString
  | String c s' => String (lower_ascii c) (str_lower s')
  end.

(** [s.replace(old, new)] for a non-empty [old]: scans left to right,
    [skip] counts the characters of a match still to be dropped. *)
Fixpoint replace_from (old new s : string) (skip : nat) : string :=
  match s with
  | EmptyString => EmptyString
  | String c s' =>
      match skip with
      | S k => replace_from old new s' k
      | O =>
          if String.prefix old s
          then new +:+ replace_from old new s' (String.length old - 1)
          else String c (replace_from old new s' 0)
      end
  end.
Definition str_replace (old new s : string) : string := replace_from old new s 0.

(** A name of the form [__x__]: the form of every name that the
    interpreter adds to a class and of every attribute of [object]. *)
Fixpoint ends_with_underscores (s : string) : bool :=
  String.eqb s "__" ||
  match s with EmptyString => false | String _ s' => ends_with_underscores s' end.
Definition is_dunder (name : string) : bool :=
  String.prefix "__" name && ends_with_underscores name.

Fixpoint is_substring (a s : string) : bool :=
  String.prefix a s ||
  match s with EmptyString => false | String _ s' => is_substring a s' end.

(** *** Containers: [key in c], [c[key]], [c[key] = value] for a [str] key *)

Definition py_contains (c : pyval) (key : string) : outcome bool :=
  match c with
  | VDict m => Ok (bool_decide (is_Some (m !! key)))
  | VStr s => Ok (is_substring key s)
  | VList l =>
      Ok (existsb (λ x, match x with VStr s => String.eqb s key | _ => false end) l)
  | _ => Raise (Exn TypeError EmptyString)
  end.

Definition py_getitem (c : pyval) (key : string) : outcome pyval :=
  match c with
  | VDict m =>
      match m !! key with
      | Some v => Ok v
      | None => Raise (Exn KeyError key)
      end
  | _ => Raise (Exn TypeError EmptyString)
  end.

Definition py_setitem (c : pyval) (key : string) (value : pyval) : outcome pyval :=
  match c with
  | VDict m => Ok (VDict (<[key := value]> m))
  | _ => Raise (Exn TypeError EmptyString)
  end.

(** [len(c)] *)
Definition py_len (c : pyval) : outcome nat :=
  match c with
  | VDict m => Ok (size m)
  | VList l => Ok (length l)
  | VStr s => Ok (String.length s)
  | _ => Raise (Exn TypeError EmptyString)
  end.

(** [c.items()], as a list: only a dict has the method.  The pairs come
    in the order of the map, not in the order of insertion, which the
    model does not keep. *)
Definition py_items (c : pyval) : outcome (list (string * pyval)) :=
  match c with
  | VDict m => Ok (map_to_list m)
  | _ => Raise (Exn AttributeError EmptyString)
  end.

End Py.
Export Py.
Open Scope py_scope.

(** ** The environment: json, yaml, the file system, the loader heap *)

(** What the json and yaml libraries do is not part of the repository.
    A codec gives, for one format, the parser ([json.loads],
    [yaml.safe_load]) and the printer ([json.dump(_, file, indent=4)],
    [yaml.dump(_, file, default_flow_style=False, indent=4)]): the text
    the printer has written to the file and the exception that stopped
    it, if any. *)
Record codec := Codec {
  parse : string → outcome pyval;
  emit : pyval → string * option exn
}.

Class Library := { codec_of : loader_kind → codec }.

(** What the interpreter provides is not part of the repository either.
    [strip] is [str.strip].  [inherited] tells what lookup along the
    classes of an instance finds under a name of the form [__x__] that
    the class body does not define: the attributes of [object]
    ([__class__], [__repr__], ...) and the ones the interpreter adds to
    every class ([__dict__], [__doc__], [__module__], [__weakref__]).
    Such an attribute is a data descriptor ([ia_data]: found before the
    instance [__dict__], and assignments go to [ia_set]) or not (found
    after it; an assignment makes an instance attribute); [ia_get] is
    what reading it gives on an instance with the given [__dict__]. *)
Record inherited_attr := InheritedAttr {
  ia_data : bool;
  ia_get : gmap string pyval → outcome pyval;
  ia_set : pyval → M (gmap string pyval) unit
}.

Class Interpreter := {
  strip : string → string;
  inherited : string → option inherited_attr
}.

(** The file system holds regular files with their text; [w_denied] maps
    the paths that cannot be opened for writing to the message of the
    [OSError] that [open] raises.  [w_loaders] is the heap of loader
    instances (their [__dict__]s) and [w_stdout] what [print] wrote. *)
Record world := World {
  w_files : gmap string string;
  w_denied : gmap string string;
  w_loaders : gmap nat (gmap string pyval);
  w_stdout : list string
}.

Definition set_files (f : gmap string string → gmap string string) (w : world) : world :=
  World (f (w_files w)) (w_denied w) (w_loaders w) (w_stdout w).
Definition set_loaders
    (f : gmap nat (gmap string pyval) → gmap nat (gmap string pyval)) (w : world) : world :=
  World (w_files w) (w_denied w) (f (w_loaders w)) (w_stdout w).

(** [print(line)] *)
Definition print (line : string) : M world unit :=
  λ w, (Ok tt, World (w_files w) (w_denied w) (w_loaders w) (w_stdout w ++ [line])).

(** [os.path.exists(p)] for a str or Path (what [check_path] lets
    through from an argument); other values are answered with a
    [TypeError]. *)
Definition os_path_exists (p : pyval) : M world bool :=
  λ w, match path_text p with
       | Some s => (Ok (bool_decide (is_Some (w_files w !! s))), w)
       | None => (Raise (Exn TypeError EmptyString), w)
       end.

(** [with open(p, 'r') as file: ... file.read() ...] *)
Definition read_file (p : pyval) : M world string :=
  λ w, match path_text p with
       | Some s =>
           match w_files w !! s with
           | Some text => (Ok text, w)
           | None => (Raise (Exn FileNotFoundError s), w)
           end
       | None => (Raise (Exn TypeError EmptyString), w)
       end.

(** [with open(p, 'w') as file: dump(config, file)]: opening truncates
    the file, then the printer writes what it writes. *)
Definition write_file (p : pyval) (printer : pyval → string * option exn)
    (config : pyval) : M world unit :=
  λ w, match path_text p with
       | Some s =>
           match w_denied w !! s with
           | Some msg => (Raise (Exn OSError msg), w)
           | None =>
               let '(text, err) := printer config in
               let w' := set_files <[s := text]> w in
               match err with
               | Some e => (Raise e, w')
               | None => (Ok tt, w')
               end
           end
       | None => (Raise (Exn TypeError EmptyString), w)
       end.

(** ** The loaders: [ConfigLoaderBase], [YamlConfigLoader], [JsonConfigLoader] *)

Module ConfigLoaderBase.

Definition class_name (k : loader_kind) : string :=
  match k with Yaml => "YamlConfigLoader" | Json => "JsonConfigLoader" end.

(** The attribute [self.__file_path] as the body of [ConfigLoaderBase]
    names it, and as the body of a subclass names it. *)
Definition base_file_path : string := mangle "ConfigLoaderBase" "__file_path".
Definition own_file_path (k : loader_kind) : string := mangle (class_name k) "__file_path".

(** [__init__]: the subclasses define none of their own. *)
Definition __init__ : gmap string pyval := {[ base_file_path := VNone ]}.

(** The [__dict__] of the loader at [l]; a location never written to
    holds a loader as [__init__] leaves it. *)
Definition attrs_at (w : world) (l : nat) : gmap string pyval :=
  default __init__ (w_loaders w !! l).

(** [self.<name>] and [self.<name> = v] on a loader: the classes define
    neither [__getattr__] nor [__setattr__] nor properties. *)
Definition get_attr (self : nat) (name : string) : M world pyval :=
  λ w, match attrs_at w self !! name with
       | Some v => (Ok v, w)
       | None => (Raise (Exn AttributeError EmptyString), w)
       end.
Definition set_attr (self : nat) (name : string) (v : pyval) : M world unit :=
  λ w, (Ok tt, set_loaders <[self := <[name := v]> (attrs_at w self)]> w).

(** A new instance: a fresh location holding [__init__]'s attributes. *)
Definition new (k : loader_kind) : M world pyval :=
  λ w, let l := fresh (dom (w_loaders w)) in
       (Ok (VLoader k l), set_loaders <[l := __init__]> w).

Definition check_path (self : nat) (file_path : pyval) : M world pyval :=
  if is_none file_path then
    let! remembered := get_attr self base_file_path in
    assert (negb (is_none remembered)) "File path must be set";;
    get_attr self base_file_path
  else
    assert (is_str_or_path file_path) "File path must be str or path";;
    ret file_path.

Section Codec.
Context {lib : Library} {interp : Interpreter}.

(** [load_config] of [YamlConfigLoader] and of [JsonConfigLoader]: the
    two bodies differ in the parser only. *)
Definition load_config (k : loader_kind) (self : nat) (file_path : pyval) : M world pyval :=
  let! p := check_path self file_path in
  set_attr self (own_file_path k) p;;
  let! p1 := get_attr self (own_file_path k) in
  let! found := os_path_exists p1 in
  if negb found then
    let! p2 := get_attr self (own_file_path k) in
    raise (Exn FileNotFoundError ("File not found: " +:+ default EmptyString (path_text p2)))
  else
    let! p3 := get_attr self (own_file_path k) in
    let! text := read_file p3 in
    pure (parse (codec_of k) text).

(** [loads(config.strip()) if isinstance(config, str) else config] *)
Definition decode_if_str (k : loader_kind) (config : pyval) : outcome pyval :=
  match config with
  | VStr s => parse (codec_of k) (strip s)
  | _ => Ok config
  end.

(** [save_config]: again one body up to the codec. *)
Definition save_config (k : loader_kind) (self : nat) (config file_path : pyval)
    : M world pyval :=
  let! _path := check_path self file_path in
  try_except
    (let! config1 := pure (decode_if_str k config) in
     write_file _path (emit (codec_of k)) config1;;
     ret (VBool true))
    (λ e, print ("Error saving config: " +:+ exn_msg e);;
          ret (VBool false)).

(** The parse (of a string input) and the write both go through. *)
Definition save_succeeds (k : loader_kind) (config p : pyval) (w : world) : Prop :=
  ∃ c s text,
    decode_if_str k config = Ok c ∧ path_text p = Some s ∧
    w_denied w !! s = None ∧ emit (codec_of k) c = (text, None).

End Codec.
End ConfigLoaderBase.

(** ** The store: [ConfigManager] *)

Module ConfigManager.
Import ConfigLoaderBase.

(** The attributes the class body writes as [self.__x]. *)
Definition config_data_attr : string := mangle "ConfigManager" "__config_data".
Definition config_file_type_attr : string := mangle "ConfigManager" "__config_file_type".
Definition config_file_path_attr : string := mangle "ConfigManager" "__config_file_path".
Definition config_loader_attr : string := mangle "ConfigManager" "__config_loader".
Definition initialized_attr : string := "is_config_initialized".

(** What lookup in the class finds under a name: a property of the class
    body (a data descriptor, found before the instance [__dict__]), a
    method of the class body (found after it), or an attribute that
    comes from the interpreter or from [object]. *)
Inductive descriptor :=
| PropConfigLoader
| PropConfigData
| PropConfigFilePath
| Method
| Inherited (a : inherited_attr).

Definition class_dict : list (string * descriptor) :=
  [ ("__init__", Method);
    (mangle "ConfigManager" "__load_config_file", Method);
    ("load_config_from_file", Method);
    ("save_config_to_file", Method);
    ("config_loader", PropConfigLoader);
    ("config_data", PropConfigData);
    ("config_file_path", PropConfigFilePath);
    ("__setattr__", Method);
    ("__getattr__", Method);
    ("__getitem__", Method);
    ("__setitem__", Method);
    ("__contains__", Method);
    ("__iter__", Method);
    ("__len__", Method);
    ("to_dict", Method) ].

(** The names the class body binds, in the order it binds them. *)
Fixpoint assoc (name : string) (l : list (string * descriptor)) : option descriptor :=
  match l with
  | [] => None
  | (n, d) :: l' => if String.eqb n name then Some d else assoc name l'
  end.

Section Attributes.
Context {interp : Interpreter}.

(** Lookup of a name along the classes of the instance: the class body
    first, then what the interpreter and [object] provide. *)
Definition type_lookup (name : string) : option descriptor :=
  match assoc name class_dict with
  | Some d => Some d
  | None => if is_dunder name then Inherited <$> inherited name else None
  end.

(** *** Reading attributes *)

(** [__getattr__(self, name)], which the interpreter calls when normal
    lookup raised [AttributeError].  Its own read of [self.__config_data]
    is a normal lookup; were that attribute missing, the hook would call
    itself without end.  [object] has no [__getattr__], so the final
    [super().__getattr__(name)] raises [AttributeError]. *)
Definition __getattr__ (o : gmap string pyval) (name : string) : outcome pyval :=
  match o !! config_data_attr with
  | None => Raise (Exn RecursionError EmptyString)
  | Some d =>
      let? found := py_contains d name in
      if found then py_getitem d name
      else Raise (Exn AttributeError "'super' object has no attribute '__getattr__'")
  end.

(** [self.<name>] for a name the class does not define: the instance
    [__dict__], then the hook. *)
Definition read_field (o : gmap string pyval) (name : string) : outcome pyval :=
  match o !! name with
  | Some v => Ok v
  | None => __getattr__ o name
  end.

(** The property getters. *)
Definition config_loader (o : gmap string pyval) : outcome pyval :=
  read_field o config_loader_attr.
Definition config_data (o : gmap string pyval) : outcome pyval :=
  read_field o config_data_attr.
Definition config_file_path (o : gmap string pyval) : outcome pyval :=
  read_field o config_file_path_attr.

(** Normal lookup, [object.__getattribute__]: a data descriptor of the
    class, else the instance [__dict__], else any other attribute of
    the class. *)
Definition __getattribute__ (o : gmap string pyval) (name : string) : outcome pyval :=
  match type_lookup name with
  | Some PropConfigLoader => config_loader o
  | Some PropConfigData => config_data o
  | Some PropConfigFilePath => config_file_path o
  | Some Method =>
      match o !! name with
      | Some v => Ok v
      | None => Ok (VMethod name)
      end
  | Some (Inherited a) =>
      if ia_data a then ia_get a o
      else
        match o !! name with
        | Some v => Ok v
        | None => ia_get a o
        end
  | None =>
      match o !! name with
      | Some v => Ok v
      | None => Raise (Exn AttributeError EmptyString)
      end
  end.

(** [store.<name>]: normal lookup, and the hook when it raised
    [AttributeError]. *)
Definition getattr (o : gmap string pyval) (name : string) : outcome pyval :=
  match __getattribute__ o name with
  | Raise (Exn AttributeError _) => __getattr__ o name
  | r => r
  end.

(** *** Writing attributes *)

(** [self.__dict__.get("__config") is None] *)
Definition config_marker_is_none (o : gmap string pyval) : bool :=
  match o !! "__config" with
  | None => true
  | Some v => is_none v
  end.

(** [__setattr__(self, name, value)], over what [super().__setattr__]
    does for the name. *)
Definition setattr_over (object_setattr : string → pyval → M (gmap string pyval) unit)
    (name : string) (value : pyval) : M (gmap string pyval) unit :=
  let! o := get in
  if config_marker_is_none o then object_setattr name value
  else
    let! d := pure (read_field o config_data_attr) in
    let! found := pure (py_contains d name) in
    if negb found then object_setattr name value
    else
      let! d' := pure (py_setitem d name value) in
      put (<[config_data_attr := d']> o).

(** [object.__setattr__] for a name that is no property of the class:
    the instance [__dict__]. *)
Definition store_field (name : string) (value : pyval) : M (gmap string pyval) unit :=
  λ o, (Ok tt, <[name := value]> o).

(** [self.<name> = value] inside the class, for such a name. *)
Definition write_field : string → pyval → M (gmap string pyval) unit :=
  setattr_over store_field.

(** The property setters. *)
Definition set_config_file_path (file_path : pyval) : M (gmap string pyval) unit :=
  if is_none file_path then
    raise (Exn ValueError "File path must contain a value")
  else if negb (is_str_or_path file_path) then
    raise (Exn ValueError "File path must be str or path")
  else write_field config_file_path_attr file_path.

(** [loader.__class__.__name__.lower().replace('configloader', '')] *)
Definition file_type (k : loader_kind) : string :=
  str_replace "configloader" EmptyString (str_lower (class_name k)).

Definition set_config_loader (loader : pyval) : M (gmap string pyval) unit :=
  match loader with
  | VNone => raise (Exn ValueError "Loader must contain a value")
  | VLoader k _ =>
      write_field config_file_type_attr (VStr (file_type k));;
      write_field config_loader_attr loader
  | _ =>
      raise (Exn ValueError
        "Loader must be an instance of < class ConfigLoaderBase > or its subclasses")
  end.

(** [object.__setattr__]: a data descriptor of the class takes the
    assignment (the setter of a property, [config_data] having a getter
    only; [ia_set] of an inherited one), else the instance [__dict__]. *)
Definition object_setattr (name : string) (value : pyval) : M (gmap string pyval) unit :=
  match type_lookup name with
  | Some PropConfigLoader => set_config_loader value
  | Some PropConfigFilePath => set_config_file_path value
  | Some PropConfigData => raise (Exn AttributeError EmptyString)
  | Some (Inherited a) => if ia_data a then ia_set a value else store_field name value
  | Some Method | None => store_field name value
  end.

(** [store.<name> = value] *)
Definition __setattr__ : string → pyval → M (gmap string pyval) unit :=
  setattr_over object_setattr.

(** *** Keyed access *)

Definition __getitem__ (o : gmap string pyval) (key : string) : outcome pyval :=
  let? d := read_field o config_data_attr in py_getitem d key.

Definition __setitem__ (key : string) (value : pyval) : M (gmap string pyval) unit :=
  let! o := get in
  let! d := pure (read_field o config_data_attr) in
  let! d' := pure (py_setitem d key value) in
  put (<[config_data_attr := d']> o).

Definition __contains__ (o : gmap string pyval) (key : string) : outcome bool :=
  let? d := read_field o config_data_attr in py_contains d key.

Definition __len__ (o : gmap string pyval) : outcome nat :=
  let? d := read_field o config_data_attr in py_len d.

Definition to_dict (o : gmap string pyval) : outcome pyval :=
  read_field o config_data_attr.

(** [iter(self.__config_data.items())], as the list of pairs the
    iterator yields over the data as it is at the call. *)
Definition __iter__ (o : gmap string pyval) : outcome (list (string * pyval)) :=
  let? d := read_field o config_data_attr in py_items d.

(** *** Construction *)

(** [__init__], run on the empty [__dict__] of the new instance. *)
Definition __init__ (file_path config_loader_ : pyval) : M (gmap string pyval) unit :=
  __setattr__ config_data_attr (VDict ∅);;
  __setattr__ initialized_attr (VBool false);;
  __setattr__ config_file_type_attr VNone;;
  __setattr__ config_file_path_attr file_path;;
  __setattr__ config_loader_attr config_loader_.

(** [ConfigManager(file_path, config_loader_)] *)
Definition new (file_path config_loader_ : pyval) : outcome unit * gmap string pyval :=
  __init__ file_path config_loader_ ∅.

End Attributes.

(** *** Loading and saving *)

(** A store together with the world it lives in. *)
Record state := State { st_self : gmap string pyval; st_world : world }.

Definition on_self {A} (m : M (gmap string pyval) A) : M state A :=
  λ s, let '(r, o) := m (st_self s) in (r, State o (st_world s)).
Definition on_world {A} (m : M world A) : M state A :=
  λ s, let '(r, w) := m (st_world s) in (r, State (st_self s) w).
Definition read {A} (f : gmap string pyval → outcome A) : M state A :=
  λ s, (f (st_self s), s).

Section Codec.
Context {lib : Library} {interp : Interpreter}.

(** [loader.load_config(arg)] and [loader.save_config(arg1, arg2)]: the
    method is looked up on the value before the arguments are
    evaluated; only a loader instance has it. *)
Definition call_load_config (loader : pyval) (arg : M state pyval) : M state pyval :=
  match loader with
  | VLoader k l => let! a := arg in on_world (load_config k l a)
  | _ => raise (Exn AttributeError EmptyString)
  end.
Definition call_save_config (loader : pyval) (arg1 arg2 : M state pyval) : M state pyval :=
  match loader with
  | VLoader k l =>
      let! a1 := arg1 in
      let! a2 := arg2 in
      on_world (save_config k l a1 a2)
  | _ => raise (Exn AttributeError EmptyString)
  end.

Definition __load_config_file : M state pyval :=
  let! loader := read (λ o, getattr o "config_loader") in
  let! config_data :=
    call_load_config loader (read (λ o, getattr o config_file_path_attr)) in
  if negb (is_dict config_data) then
    raise (Exn ValueError "Loaded config data must be a dictionary")
  else if negb (truthy config_data) then
    raise (Exn ValueError "Loaded config data is empty")
  else
    on_self (__setattr__ config_data_attr config_data);;
    on_self (__setattr__ initialized_attr (VBool true));;
    ret VNone.

Definition load_config_from_file (loader file_path : pyval) : M state pyval :=
  let! p := py_or file_path (read (λ o, getattr o config_file_path_attr)) in
  on_self (__setattr__ "config_file_path" p);;
  let! l := py_or loader (read (λ o, getattr o config_loader_attr)) in
  on_self (__setattr__ "config_loader" l);;
  __load_config_file.

(** The body ends without a [return]: the call evaluates to [None]. *)
Definition save_config_to_file (file_path : pyval) : M state pyval :=
  let! p := py_or file_path (read (λ o, getattr o config_file_path_attr)) in
  on_self (__setattr__ "config_file_path" p);;
  let! l := read (λ o, getattr o "config_loader") in
  assert (negb (is_none l)) "The config loader must be set.";;
  let! l' := read (λ o, getattr o "config_loader") in
  call_save_config l'
    (read (λ o, getattr o "config_data"))
    (read (λ o, getattr o "config_file_path"));;
  ret VNone.

End Codec.
End ConfigManager.

(** ** A concrete library and interpreter for running the model

    The json and yaml libraries restricted to flat mappings whose keys
    and values are plain lower-case words: no quoting, escaping or
    scalar resolution is involved there, and the texts are the ones the
    repository's tests use.  Keys are printed in the order of the map.
    The interpreter: [str.strip] on ASCII text, and the attributes of
    [object] and of every class. *)

Module Fragment.

(** [str.strip] on ASCII text: the ASCII characters it removes. *)
Definition is_space (c : ascii) : bool :=
  let n := nat_of_ascii c in
  ((9 <=? n) && (n <=? 13)) || ((28 <=? n) && (n <=? 32)).

Fixpoint lstrip (s : string) : string :=
  match s with
  | String c s' => if is_space c then lstrip s' else s
  | EmptyString => EmptyString
  end.
Fixpoint rstrip (s : string) : string :=
  match s with
  | EmptyString => EmptyString
  | String c s' =>
      match rstrip s' with
      | EmptyString => if is_space c then EmptyString else String c EmptyString
      | r => String c r
      end
  end.
Definition str_strip (s : string) : string := rstrip (lstrip s).

Definition dquote : ascii := ascii_of_nat 34.
Definition newline : ascii := ascii_of_nat 10.
Definition nl : string := String newline EmptyString.
Definition quoted (s : string) : string :=
  String dquote EmptyString +:+ s +:+ String dquote EmptyString.

Definition is_word_char (c : ascii) : bool :=
  let n := nat_of_ascii c in ((97 <=? n) && (n <=? 122)) || (n =? 95).
Fixpoint all_word_chars (s : string) : bool :=
  match s with
  | EmptyString => true
  | String c s' => is_word_char c && all_word_chars s'
  end.
(** Words that YAML resolves to something other than a string. *)
Definition reserved : list string :=
  ["null"; "true"; "false"; "yes"; "no"; "on"; "off"; "y"; "n"; "_"].
Definition is_word (s : string) : bool :=
  negb (String.eqb s EmptyString) && all_word_chars s
  && negb (existsb (String.eqb s) reserved).

Definition word_of (v : pyval) : option string :=
  match v with
  | VStr s => if is_word s then Some s else None
  | _ => None
  end.

(** The items of a flat mapping of words, if it is one. *)
Fixpoint word_items (l : list (string * pyval)) : option (list (string * string)) :=
  match l with
  | [] => Some []
  | (k, v) :: l' =>
      match word_of (VStr k), word_of v, word_items l' with
      | Some k', Some v', Some r => Some ((k', v') :: r)
      | _, _, _ => None
      end
  end.
Definition flat_words (v : pyval) : option (list (string * string)) :=
  match v with
  | VDict m => word_items (map_to_list m)
  | _ => None
  end.

Definition unsupported : exn := Exn LibraryError "outside the modelled fragment".

Fixpoint join (sep : string) (l : list string) : string :=
  match l with
  | [] => EmptyString
  | [x] => x
  | x :: l' => x +:+ sep +:+ join sep l'
  end.

(** [json.dump(v, file, indent=4)] *)
Definition json_emit (v : pyval) : string * option exn :=
  match flat_words v with
  | Some [] => ("{}", None)
  | Some items =>
      ("{" +:+ nl
        +:+ join ("," +:+ nl)
              ((λ kv, "    " +:+ quoted (fst kv) +:+ ": " +:+ quoted (snd kv)) <$> items)
        +:+ nl +:+ "}", None)
  | None => (EmptyString, Some unsupported)
  end.

(** [yaml.dump(v, file, default_flow_style=False, indent=4)] *)
Definition yaml_emit (v : pyval) : string * option exn :=
  match flat_words v with
  | Some [] => ("{}" +:+ nl, None)
  | Some items =>
      (join EmptyString ((λ kv, fst kv +:+ ": " +:+ snd kv +:+ nl) <$> items), None)
  | None => (EmptyString, Some unsupported)
  end.

(** Reading a word off the front of a text. *)
Fixpoint take_word (s : string) : string * string :=
  match s with
  | String c s' =>
      if is_word_char c
      then let '(w, r) := take_word s' in (String c w, r)
      else (EmptyString, s)
  | EmptyString => (EmptyString, EmptyString)
  end.

Definition expect (t : string) (s : string) : option string :=
  if String.prefix t s
  then Some (String.substring (String.length t) (String.length s - String.length t) s)
  else None.

Definition a_word (s : string) : option (string * string) :=
  let '(w, r) := take_word s in
  if is_word w then Some (w, r) else None.

Definition a_quoted_word (s : string) : option (string * string) :=
  s1 ← expect (String dquote EmptyString) (lstrip s);
  '(w, s2) ← a_word s1;
  s3 ← expect (String dquote EmptyString) s2;
  Some (w, s3).

(** [json.loads]: an object of quoted words. *)
Fixpoint json_members (fuel : nat) (s : string) (m : gmap string pyval)
    : option (gmap string pyval) :=
  match fuel with
  | O => None
  | S fuel' =>
      '(k, s1) ← a_quoted_word s;
      s2 ← expect ":" (lstrip s1);
      '(v, s3) ← a_quoted_word s2;
      let m' := <[k := VStr v]> m in
      match expect "," (lstrip s3) with
      | Some s4 => json_members fuel' s4 m'
      | None =>
          s4 ← expect "}" (lstrip s3);
          if String.eqb (lstrip s4) EmptyString then Some m' else None
      end
  end.

Definition json_parse (s : string) : outcome pyval :=
  match expect "{" (lstrip s) with
  | Some s1 =>
      match expect "}" (lstrip s1) with
      | Some s2 =>
          if String.eqb (lstrip s2) EmptyString then Ok (VDict ∅) else Raise unsupported
      | None =>
          match json_members (String.length s) s1 ∅ with
          | Some m => Ok (VDict m)
          | None => Raise unsupported
          end
      end
  | None => Raise unsupported
  end.

(** [yaml.safe_load]: lines [word: word]; an empty document is [None]. *)
Fixpoint yaml_lines (fuel : nat) (s : string) (m : gmap string pyval)
    : option (gmap string pyval) :=
  match fuel with
  | O => None
  | S fuel' =>
      '(k, s1) ← a_word s;
      s2 ← expect ": " s1;
      '(v, s3) ← a_word s2;
      let m' := <[k := VStr v]> m in
      if String.eqb s3 EmptyString then Some m'
      else
        s4 ← expect nl s3;
        if String.eqb s4 EmptyString then Some m' else yaml_lines fuel' s4 m'
  end.

Definition yaml_parse (s : string) : outcome pyval :=
  if String.eqb (str_strip s) EmptyString then Ok VNone
  else if String.eqb (str_strip s) "{}" then Ok (VDict ∅)
  else
    match yaml_lines (String.length s) s ∅ with
    | Some m => Ok (VDict m)
    | None => Raise unsupported
    end.

(** The attributes that come from the interpreter and from [object], as
    CPython 3 has them for a class without docstring defined in the
    module [pynamixel.config]: three data descriptors, two plain class
    attributes and the methods of [object] that the class body does not
    override. *)
Definition object_methods : list string :=
  [ "__new__"; "__repr__"; "__hash__"; "__str__"; "__getattribute__";
    "__delattr__"; "__lt__"; "__le__"; "__eq__"; "__ne__"; "__gt__"; "__ge__";
    "__reduce_ex__"; "__reduce__"; "__getstate__"; "__subclasshook__";
    "__init_subclass__"; "__format__"; "__sizeof__"; "__dir__" ].

Definition class_attr (v : pyval) : inherited_attr :=
  InheritedAttr false (λ _, Ok v) (λ _, ret tt).

Definition inherited_of (name : string) : option inherited_attr :=
  if String.eqb name "__class__" then
    Some (InheritedAttr true
            (λ _, Ok (VClass "ConfigManager"))
            (λ v, match v with
                  | VClass c =>
                      if String.eqb c "ConfigManager" then ret tt
                      else raise (Exn TypeError EmptyString)
                  | _ => raise (Exn TypeError EmptyString)
                  end))
  else if String.eqb name "__dict__" then
    Some (InheritedAttr true
            (λ o, Ok (VDict o))
            (λ v, match v with
                  | VDict m => put m
                  | _ => raise (Exn TypeError EmptyString)
                  end))
  else if String.eqb name "__weakref__" then
    Some (InheritedAttr true
            (λ _, Ok VNone)
            (λ _, raise (Exn AttributeError EmptyString)))
  else if String.eqb name "__doc__" then Some (class_attr VNone)
  else if String.eqb name "__module__" then Some (class_attr (VStr "pynamixel.config"))
  else if existsb (String.eqb name) object_methods then Some (class_attr (VMethod name))
  else None.

#[local] Instance interpreter : Interpreter :=
  {| strip := str_strip; inherited := inherited_of |}.

#[local] Instance library : Library :=
  {| codec_of k :=
       match k with
       | Json => Codec json_parse json_emit
       | Yaml => Codec yaml_parse yaml_emit
       end |}.

End Fragment.

(** ** Vocabulary of the statements *)

Module Store.
Import ConfigManager.

(** The store as the class keeps it: the five attributes of [__init__]
    are there, [__config_data] holds a dict, and the instance has no
    attribute called [__config] (the name [__setattr__] looks for).
    [__init__] establishes this and the methods of the class keep it. *)
Record constructed (o : gmap string pyval) : Prop := Constructed {
  marker_none : config_marker_is_none o = true;
  data_is_dict : ∃ m, o !! config_data_attr = Some (VDict m);
  has_initialized : is_Some (o !! initialized_attr);
  has_file_type : is_Some (o !! config_file_type_attr);
  has_file_path : is_Some (o !! config_file_path_attr);
  has_loader : is_Some (o !! config_loader_attr)
}.

Definition current_path (o : gmap string pyval) : pyval :=
  default VNone (o !! config_file_path_attr).
Definition current_loader (o : gmap string pyval) : pyval :=
  default VNone (o !! config_loader_attr).
Definition current_data (o : gmap string pyval) : pyval :=
  default VNone (o !! config_data_attr).

(** The value of [arg or current]. *)
Definition effective (arg current : pyval) : pyval :=
  if truthy arg then arg else current.

(** The store after both setters of a load have run. *)
Definition retargeted (p : pyval) (k : loader_kind) (l : nat) (o : gmap string pyval)
    : gmap string pyval :=
  <[config_loader_attr := VLoader k l]>
    (<[config_file_type_attr := VStr (file_type k)]>
       (<[config_file_path_attr := p]> o)).

(** The [__dict__] a new store has. *)
Definition fresh_store (file_path config_loader_ : pyval) : gmap string pyval :=
  <[config_loader_attr := config_loader_]>
    (<[config_file_path_attr := file_path]>
       (<[config_file_type_attr := VNone]>
          (<[initialized_attr := VBool false]>
             (<[config_data_attr := VDict ∅]> ∅)))).

(** A computation keeps the store [constructed]. *)
Definition preserves {A} (m : M state A) : Prop :=
  ∀ s, constructed (st_self s) → constructed (st_self (m s).2).

(** The world after [print("Error saving config: " + msg)]. *)
Definition logged (msg : string) (w : world) : world :=
  World (w_files w) (w_denied w) (w_loaders w)
        (w_stdout w ++ ["Error saving config: " +:+ msg]).

Section Environment.
Context {lib : Library} {interp : Interpreter}.

(** Normal lookup finds nothing under [name]: no instance attribute, and
    nothing in the class, be it from the class body, from the
    interpreter or from [object]. *)
Definition unresolved (o : gmap string pyval) (name : string) : Prop :=
  type_lookup name = None ∧ o !! name = None.

(** The name of a data descriptor that the interpreter provides
    ([__dict__], [__class__], [__weakref__]): an assignment to it is
    the interpreter's business and not a write of an attribute. *)
Definition interpreter_owned (name : string) : bool :=
  match type_lookup name with
  | Some (Inherited a) => ia_data a
  | _ => false
  end.

(** What [store.load_config_from_file(loader, file_path)] evaluates to
    in world [w], and the store it leaves. *)
Definition load_outcome (loader file_path : pyval)
    (o : gmap string pyval) (w : world) : outcome pyval :=
  (load_config_from_file loader file_path (State o w)).1.
Definition store_after_load (loader file_path : pyval)
    (o : gmap string pyval) (w : world) : gmap string pyval :=
  st_self (load_config_from_file loader file_path (State o w)).2.

(** The input of an encode as the specification describes it: a mapping
    is taken as it is, a raw-format string is first decoded with the
    parser of the same format (after [strip]); anything else is no
    input the specification speaks of. *)
Definition encode_input (k : loader_kind) (config : pyval) : option (outcome pyval) :=
  match config with
  | VDict m => Some (Ok (VDict m))
  | VStr raw => Some (parse (codec_of k) (strip raw))
  | _ => None
  end.

End Environment.

End Store.

(** ** Worked inputs *)

Module Examples.
Import ConfigLoaderBase ConfigManager Fragment.

Definition key_value : pyval := VDict {[ "key" := VStr "value" ]}.

(** The texts of the tests: [{"key": "value"}] and [key: value\n]. *)
Definition json_text : string := "{" +:+ quoted "key" +:+ ": " +:+ quoted "value" +:+ "}".
Definition yaml_text : string := "key: value" +:+ nl.

(** Two configuration files, an empty YAML file (which loads as [None]),
    a JSON file holding the empty object, and a path that refuses
    writing. *)
Definition disk : world :=
  World {[ "config.json" := json_text; "config.yaml" := yaml_text;
           "empty.yaml" := EmptyString; "empty.json" := "{}" ]}
        {[ "locked.json" := "Permission denied" ]}
        ∅ [].

(** [ConfigManager(file_path='config.json', config_loader_=JsonConfigLoader())] *)
Definition store : gmap string pyval :=
  (new (interp := interpreter) (VStr "config.json") (VLoader Json 0)).2.

(** ... after [store['key'] = 'a'] *)
Definition store_a : gmap string pyval := (__setitem__ "key" (VStr "a") store).2.

End Examples.

(** ** The loaders *)

Section LoaderFacts.
Context {lib : Library} {interp : Interpreter}.
Import ConfigLoaderBase.

(** [check_path] only reads. *)
Lemma check_path_world self file_path w : (check_path self file_path w).2 = w.
Proof.
  unfold check_path, bind, get_attr, assert, ret, raise.
  destruct (is_none file_path).
  - destruct (attrs_at w self !! base_file_path) as [v|] eqn:E; [|done].
    destruct (negb (is_none v)); simpl; [|done].
    by rewrite E.
  - by destruct (is_str_or_path file_path).
Qed.

(** An explicit str or Path is returned as it is. *)
Lemma check_path_explicit self file_path w :
  is_str_or_path file_path = true →
  check_path self file_path w = (Ok file_path, w).
Proof.
  intros Hp. unfold check_path, bind, assert, ret.
  destruct file_path; try discriminate; done.
Qed.

(** Any other explicit argument fails the assertion. *)
Lemma check_path_wrong_type self file_path w :
  is_none file_path = false → is_str_or_path file_path = false →
  check_path self file_path w
  = (Raise (Exn AssertionError "File path must be str or path"), w).
Proof.
  intros Hn Hp. unfold check_path, bind, assert, raise. by rewrite Hn, Hp.
Qed.

(** No argument: the attribute [ConfigLoaderBase]'s own body calls
    [__file_path] decides. *)
Lemma check_path_remembered self v w :
  attrs_at w self !! base_file_path = Some v → is_none v = false →
  check_path self VNone w = (Ok v, w).
Proof.
  intros Hv Hn. unfold check_path, bind, get_attr, assert, ret. simpl.
  rewrite Hv, Hn. simpl. by rewrite Hv.
Qed.

Lemma check_path_nothing_remembered self w :
  attrs_at w self !! base_file_path = Some VNone →
  check_path self VNone w = (Raise (Exn AssertionError "File path must be set"), w).
Proof.
  intros Hv. unfold check_path, bind, get_attr, assert, raise. simpl. by rewrite Hv.
Qed.

Lemma attrs_at_set self name v w :
  attrs_at (set_loaders <[self := <[name := v]> (attrs_at w self)]> w) self
  = <[name := v]> (attrs_at w self).
Proof. unfold attrs_at. simpl. by rewrite lookup_insert_eq. Qed.

(** [load_config] on a path that names a file: the text is parsed, and
    the path is kept under the subclass's own mangled name. *)
Lemma load_config_reads k self p s text w :
  path_text p = Some s →
  w_files w !! s = Some text →
  load_config k self p w
  = (parse (codec_of k) text,
     set_loaders <[self := <[own_file_path k := p]> (attrs_at w self)]> w).
Proof.
  intros Hp Hs. unfold load_config, bind.
  rewrite check_path_explicit by (by destruct p).
  unfold set_attr, get_attr. rewrite attrs_at_set, lookup_insert_eq.
  unfold os_path_exists. rewrite Hp. simpl. rewrite Hs. simpl.
  rewrite attrs_at_set, lookup_insert_eq. unfold read_file. rewrite Hp. simpl.
  rewrite Hs. unfold pure. by destruct (parse _ _).
Qed.

Lemma load_config_not_found k self file_path p s w :
  check_path self file_path w = (Ok p, w) →
  path_text p = Some s →
  w_files w !! s = None →
  load_config k self file_path w
  = (Raise (Exn FileNotFoundError ("File not found: " +:+ s)),
     set_loaders <[self := <[own_file_path k := p]> (attrs_at w self)]> w).
Proof.
  intros Hc Hp Hs. unfold load_config, bind. rewrite Hc.
  unfold set_attr, get_attr. rewrite attrs_at_set, lookup_insert_eq.
  unfold os_path_exists. rewrite Hp. simpl. rewrite Hs. simpl.
  rewrite attrs_at_set, lookup_insert_eq. unfold raise. by rewrite Hp.
Qed.

(** [load_config] never touches the attribute [check_path] reads. *)
Lemma load_config_base_attr k self file_path w :
  attrs_at (load_config k self file_path w).2 self !! base_file_path
  = attrs_at w self !! base_file_path.
Proof.
  unfold load_config, bind.
  pose proof (check_path_world self file_path w) as Hw.
  destruct (check_path self file_path w) as [[p|e] w0]; simpl in Hw; subst w0; [|done].
  assert (Hb : attrs_at (set_loaders <[self := <[own_file_path k := p]> (attrs_at w self)]> w)
                 self !! base_file_path = attrs_at w self !! base_file_path).
  { rewrite attrs_at_set, lookup_insert_ne; [done|].
    destruct k; intros E; vm_compute in E; discriminate E. }
  unfold set_attr, get_attr. rewrite attrs_at_set, lookup_insert_eq.
  unfold os_path_exists, read_file, raise, pure.
  destruct (path_text p) as [s|] eqn:Hp; [|done]. simpl.
  destruct (w_files w !! s) as [text|] eqn:Hs; simpl;
    rewrite attrs_at_set, lookup_insert_eq; simpl; rewrite ?Hp, ?Hs; simpl;
    by rewrite ?Hb.
Qed.

Lemma save_config_writes k self config p s text w :
  is_str config = false →
  path_text p = Some s →
  w_denied w !! s = None →
  emit (codec_of k) config = (text, None) →
  save_config k self config p w = (Ok (VBool true), set_files <[s := text]> w).
Proof.
  intros Hc Hp Hden He. unfold save_config, bind, try_except.
  rewrite check_path_explicit by (by destruct p).
  replace (decode_if_str k config) with (Ok config) by (by destruct config).
  unfold pure, write_file, ret. by rewrite Hp, Hden, He.
Qed.

(** Whatever it is given, [save_config] returns a boolean once the path
    is resolved. *)
Lemma save_config_flag k self config file_path p w :
  check_path self file_path w = (Ok p, w) →
  ∃ b w', save_config k self config file_path w = (Ok (VBool b), w') ∧
          (b = true ↔ save_succeeds k config p w).
Proof.
  intros Hc. unfold save_config, bind, try_except, save_succeeds. rewrite Hc.
  unfold pure, write_file, print, ret.
  destruct (decode_if_str k config) as [c|e] eqn:Hd.
  2:{ eexists false, _. split; [done|]. split; [done|]. by intros (?&?&?&?&_). }
  destruct (path_text p) as [s|] eqn:Hp.
  2:{ eexists false, _. split; [done|]. split; [done|]. by intros (?&?&?&_&?&_). }
  destruct (w_denied w !! s) as [msg|] eqn:Hden.
  { eexists false, _. split; [done|]. split; [done|].
    intros (?&?&?&_&?&?&_). congruence. }
  destruct (emit (codec_of k) c) as [text [e|]] eqn:He.
  { eexists false, _. split; [done|]. split; [done|].
    intros (?&?&?&?&_&_&?). congruence. }
  eexists true, _. split; [done|]. split; [|done]. intros _. by exists c, s, text.
Qed.

(** Saving a value and loading the file again gives what the parser
    makes of the printer's text. *)
Lemma save_then_load k self config p s text w :
  is_str config = false →
  path_text p = Some s →
  w_denied w !! s = None →
  emit (codec_of k) config = (text, None) →
  ∃ w1 w2,
    save_config k self config p w = (Ok (VBool true), w1) ∧
    load_config k self p w1 = (parse (codec_of k) text, w2).
Proof.
  intros Hc Hp Hden He. eexists _, _. split.
  - by apply (save_config_writes k self config p s text).
  - apply (load_config_reads k self p s text); [done|].
    simpl. by rewrite lookup_insert_eq.
Qed.

End LoaderFacts.

Section LoaderClaims.
Context {lib : Library} {interp : Interpreter}.
Import ConfigLoaderBase.

(** C4.  The claim: a path resolved from an explicit argument is
    remembered by the loader, so that a later [load_config] without
    argument resolves to it.  The code stores the path under the name
    mangled for the subclass, while [check_path] reads the name mangled
    for [ConfigLoaderBase]: on a new loader of either variant, after
    [load_config(path)] the subclass attribute holds the path, the base
    attribute is still [None], and resolving without an argument fails
    the assertion instead of returning the path. *)
Theorem remembered_path_is_lost (k : loader_kind) (path : string) :
  (new k Examples.disk).1 = Ok (VLoader k 0) ∧
  attrs_at (load_config k 0 (VStr path) (new k Examples.disk).2).2 0
    !! own_file_path k = Some (VStr path) ∧
  attrs_at (load_config k 0 (VStr path) (new k Examples.disk).2).2 0
    !! base_file_path = Some VNone ∧
  (check_path 0 VNone (load_config k 0 (VStr path) (new k Examples.disk).2).2).1
  = Raise (Exn AssertionError "File path must be set") ∧
  (load_config k 0 VNone (load_config k 0 (VStr path) (new k Examples.disk).2).2).1
  = Raise (Exn AssertionError "File path must be set").
Proof.
  split; [reflexivity|].
  set (w0 := (new k Examples.disk).2).
  set (w1 := (load_config k 0 (VStr path) w0).2).
  assert (Hbase : attrs_at w1 0 !! base_file_path = Some VNone).
  { unfold w1. by rewrite load_config_base_attr. }
  assert (Hw1 : w1 = set_loaders
                  <[0 := <[own_file_path k := VStr path]> (attrs_at w0 0)]> w0).
  { unfold w1. destruct (w_files w0 !! path) as [text|] eqn:Hf.
    - by rewrite (load_config_reads k 0 (VStr path) path text).
    - by rewrite (load_config_not_found k 0 (VStr path) (VStr path) path). }
  split; [|split; [done|split]].
  - by rewrite Hw1, attrs_at_set, lookup_insert_eq.
  - by rewrite check_path_nothing_remembered.
  - unfold load_config, bind. by rewrite check_path_nothing_remembered.
Qed.

(** C6.  For both loader variants, a path argument that resolves to the
    file [s], and an input that is a mapping or a raw-format string (the
    string is first decoded with the parser of the same format):
    [save_config] never raises.  It returns [True] exactly when the
    parse of a string input, the opening of the file and the printer all
    went through, and the file then holds the printed text; on an
    exception of the parse, of the opening or of the printer it returns
    [False] and prints the error (the file is untouched unless the
    printer failed after the opening). *)
Theorem save_config_returns_flag (k : loader_kind) (self : nat)
    (config file_path p : pyval) (s : string) (r : outcome pyval) (w : world) :
  check_path self file_path w = (Ok p, w) →
  path_text p = Some s →
  Store.encode_input k config = Some r →
  save_config k self config file_path w =
    match r with
    | Raise e => (Ok (VBool false), Store.logged (exn_msg e) w)
    | Ok c =>
        match w_denied w !! s with
        | Some msg => (Ok (VBool false), Store.logged msg w)
        | None =>
            match emit (codec_of k) c with
            | (text, None) => (Ok (VBool true), set_files <[s := text]> w)
            | (text, Some e) =>
                (Ok (VBool false),
                 Store.logged (exn_msg e) (set_files <[s := text]> w))
            end
        end
    end.
Proof.
  intros Hc Hp Hin. unfold save_config, bind, try_except. rewrite Hc.
  unfold pure, write_file, print, ret, Store.logged. rewrite Hp.
  assert (decode_if_str k config = r) as ->.
  { destruct config; simpl in Hin; try discriminate Hin; by injection Hin. }
  destruct r as [c|e]; [|done].
  destruct (w_denied w !! s) as [msg|]; [done|].
  by destruct (emit (codec_of k) c) as [text [e|]].
Qed.

(** C7.  For both loader variants, [load_config] on a resolved path that
    names no file raises [FileNotFoundError] with the message
    [File not found: <path>]; nothing inside the loader catches it. *)
Theorem load_config_missing_file (k : loader_kind) (self : nat)
    (file_path p : pyval) (s : string) (w : world) :
  check_path self file_path w = (Ok p, w) →
  path_text p = Some s →
  w_files w !! s = None →
  (load_config k self file_path w).1
  = Raise (Exn FileNotFoundError ("File not found: " +:+ s)).
Proof.
  intros Hc Hp Hs. by rewrite (load_config_not_found k self file_path p s).
Qed.

(** C8.  For both loader variants: when the library's printer and parser
    agree on the mapping [{"key": "value"}], saving it to a writable
    path and loading that path again returns the mapping. *)
Theorem save_then_load_round_trip (k : loader_kind) (self : nat)
    (p : pyval) (s text : string) (w : world) :
  path_text p = Some s →
  w_denied w !! s = None →
  emit (codec_of k) Examples.key_value = (text, None) →
  parse (codec_of k) text = Ok Examples.key_value →
  ∃ w1 w2,
    save_config k self Examples.key_value p w = (Ok (VBool true), w1) ∧
    load_config k self p w1 = (Ok Examples.key_value, w2).
Proof.
  intros Hp Hden He Hparse.
  destruct (save_then_load k self Examples.key_value p s text w)
    as (w1 & w2 & Hsave & Hload); try done.
  exists w1, w2. by rewrite Hload, Hparse.
Qed.

End LoaderClaims.

(** On the example disk, with the concrete JSON printer: the mapping of
    the tests saved to a new path. *)
Lemma save_config_returns_flag_witness :
  (ConfigLoaderBase.check_path 0 (VStr "new.json") Examples.disk
     = (Ok (VStr "new.json"), Examples.disk) ∧
   path_text (VStr "new.json") = Some "new.json" ∧
   Store.encode_input (lib := Fragment.library) (interp := Fragment.interpreter)
     Json Examples.key_value = Some (Ok Examples.key_value)) ∧
  ConfigLoaderBase.save_config (lib := Fragment.library)
      (interp := Fragment.interpreter) Json 0
      Examples.key_value (VStr "new.json") Examples.disk
  = (Ok (VBool true),
     set_files <["new.json" := (Fragment.json_emit Examples.key_value).1]> Examples.disk).
Proof.
  split; [repeat split|].
  apply (save_config_returns_flag (lib := Fragment.library)
           (interp := Fragment.interpreter) Json 0 Examples.key_value
           (VStr "new.json") (VStr "new.json") "new.json" (Ok Examples.key_value)
           Examples.disk eq_refl eq_refl eq_refl).
Defined.

(** On the example disk: a YAML load of a Path that names no file. *)
Lemma load_config_missing_file_witness :
  ConfigLoaderBase.check_path 0 (VPath "absent.yaml") Examples.disk
    = (Ok (VPath "absent.yaml"), Examples.disk) ∧
  path_text (VPath "absent.yaml") = Some "absent.yaml" ∧
  w_files Examples.disk !! "absent.yaml" = None ∧
  (ConfigLoaderBase.load_config (lib := Fragment.library) Yaml 0
     (VPath "absent.yaml") Examples.disk).1
  = Raise (Exn FileNotFoundError "File not found: absent.yaml").
Proof.
  split; [reflexivity|]. split; [reflexivity|]. split; [vm_compute; reflexivity|].
  apply (load_config_missing_file (lib := Fragment.library) Yaml 0
           (VPath "absent.yaml") (VPath "absent.yaml") "absent.yaml" Examples.disk).
  - reflexivity.
  - reflexivity.
  - vm_compute; reflexivity.
Defined.

(** On the example disk, with the concrete JSON printer and parser. *)
Lemma save_then_load_round_trip_witness :
  (path_text (VStr "new.json") = Some "new.json" ∧
   w_denied Examples.disk !! "new.json" = None ∧
   emit (codec_of (Library := Fragment.library) Json) Examples.key_value
     = ((Fragment.json_emit Examples.key_value).1, None) ∧
   parse (codec_of (Library := Fragment.library) Json)
     (Fragment.json_emit Examples.key_value).1 = Ok Examples.key_value) ∧
  ∃ w1 w2,
    ConfigLoaderBase.save_config (lib := Fragment.library)
      (interp := Fragment.interpreter) Json 0
      Examples.key_value (VStr "new.json") Examples.disk = (Ok (VBool true), w1) ∧
    ConfigLoaderBase.load_config (lib := Fragment.library) Json 0
      (VStr "new.json") w1 = (Ok Examples.key_value, w2).
Proof.
  split.
  - repeat split; vm_compute; reflexivity.
  - apply (save_then_load_round_trip (lib := Fragment.library)
           (interp := Fragment.interpreter) Json 0
             (VStr "new.json") "new.json" (Fragment.json_emit Examples.key_value).1);
      vm_compute; reflexivity.
Defined.

(** ** The store: attribute access *)

Section AttributeFacts.
Context {interp : Interpreter}.
Import ConfigManager Store.

#[local] Ltac str_neq :=
  let E := fresh in intros E; vm_compute in E; discriminate E.

Lemma type_lookup_fields :
  type_lookup config_data_attr = None ∧ type_lookup initialized_attr = None ∧
  type_lookup config_file_type_attr = None ∧ type_lookup config_file_path_attr = None ∧
  type_lookup config_loader_attr = None.
Proof. by vm_compute. Qed.

Lemma marker_after_insert o name v :
  name ≠ "__config" →
  config_marker_is_none (<[name := v]> o) = config_marker_is_none o.
Proof. intros Hn. unfold config_marker_is_none. by rewrite lookup_insert_ne. Qed.

(** With no attribute [__config] in the instance, the first operand of
    the [or] in [__setattr__] is true and the second is not evaluated:
    every write goes to [object.__setattr__]. *)
Lemma setattr_over_marker f name v o :
  config_marker_is_none o = true → setattr_over f name v o = f name v o.
Proof. intros Hm. unfold setattr_over, bind, get. by rewrite Hm. Qed.

Lemma write_field_marker name v o :
  config_marker_is_none o = true →
  write_field name v o = (Ok tt, <[name := v]> o).
Proof. intros Hm. unfold write_field. by rewrite setattr_over_marker. Qed.

Lemma setattr_field_marker name v o :
  config_marker_is_none o = true → type_lookup name = None →
  __setattr__ name v o = (Ok tt, <[name := v]> o).
Proof.
  intros Hm Ht. unfold __setattr__. rewrite setattr_over_marker by done.
  unfold object_setattr. by rewrite Ht.
Qed.

Lemma set_config_file_path_ok p o :
  config_marker_is_none o = true →
  is_str_or_path p = true →
  set_config_file_path p o = (Ok tt, <[config_file_path_attr := p]> o).
Proof.
  intros Hm Hp. unfold set_config_file_path.
  destruct p; try discriminate; simpl; by rewrite write_field_marker.
Qed.

Lemma set_config_file_path_rejects p o :
  is_str_or_path p = false →
  ∃ msg, set_config_file_path p o = (Raise (Exn ValueError msg), o).
Proof.
  intros Hp. unfold set_config_file_path, raise.
  destruct (is_none p); [by eexists|]. rewrite Hp. by eexists.
Qed.

Lemma set_config_loader_ok k l o :
  config_marker_is_none o = true →
  set_config_loader (VLoader k l) o
  = (Ok tt, <[config_loader_attr := VLoader k l]>
              (<[config_file_type_attr := VStr (file_type k)]> o)).
Proof.
  intros Hm. unfold set_config_loader, bind.
  rewrite write_field_marker by done.
  rewrite write_field_marker; [done|].
  rewrite marker_after_insert; [done|str_neq].
Qed.

Lemma set_config_loader_rejects v o :
  is_loader v = false →
  ∃ msg, set_config_loader v o = (Raise (Exn ValueError msg), o).
Proof.
  intros Hv. unfold set_config_loader, raise.
  destruct v; try discriminate Hv; by eexists.
Qed.

(** The format tags. *)
Lemma file_type_tags : file_type Yaml = "yaml" ∧ file_type Json = "json".
Proof. by vm_compute. Qed.

Lemma getattr_field o name v :
  type_lookup name = None → o !! name = Some v → getattr o name = Ok v.
Proof. intros Ht Hv. unfold getattr, __getattribute__. by rewrite Ht, Hv. Qed.

Lemma getattr_config_loader o v :
  o !! config_loader_attr = Some v → getattr o "config_loader" = Ok v.
Proof.
  intros Hv. unfold getattr, __getattribute__.
  change (type_lookup "config_loader") with (Some PropConfigLoader).
  unfold config_loader, read_field. rewrite Hv. by destruct v.
Qed.

Lemma getattr_config_data o v :
  o !! config_data_attr = Some v → getattr o "config_data" = Ok v.
Proof.
  intros Hv. unfold getattr, __getattribute__.
  change (type_lookup "config_data") with (Some PropConfigData).
  unfold config_data, read_field. rewrite Hv. by destruct v.
Qed.

Lemma getattr_config_file_path o v :
  o !! config_file_path_attr = Some v → getattr o "config_file_path" = Ok v.
Proof.
  intros Hv. unfold getattr, __getattribute__.
  change (type_lookup "config_file_path") with (Some PropConfigFilePath).
  unfold config_file_path, read_field. rewrite Hv. by destruct v.
Qed.

(** Normal lookup failed and the name is a key of the data: the hook
    answers with the value; it is no key: [AttributeError]. *)
Lemma getattr_hook_key o m n v :
  o !! config_data_attr = Some (VDict m) → unresolved o n → m !! n = Some v →
  getattr o n = Ok v.
Proof.
  intros Hd [Ht Hn] Hv. unfold getattr, __getattribute__, __getattr__.
  rewrite Ht, Hn, Hd. simpl. rewrite Hv.
  rewrite bool_decide_eq_true_2 by eauto. done.
Qed.

Lemma getattr_hook_no_key o m n :
  o !! config_data_attr = Some (VDict m) → unresolved o n → m !! n = None →
  getattr o n
  = Raise (Exn AttributeError "'super' object has no attribute '__getattr__'").
Proof.
  intros Hd [Ht Hn] Hv. unfold getattr, __getattribute__, __getattr__.
  rewrite Ht, Hn, Hd. simpl. rewrite Hv.
  rewrite bool_decide_eq_false_2; [done|]. by intros [? ?].
Qed.

Lemma setitem_dict o m key v :
  o !! config_data_attr = Some (VDict m) →
  __setitem__ key v o = (Ok tt, <[config_data_attr := VDict (<[key := v]> m)]> o).
Proof.
  intros Hd. unfold __setitem__, bind, get, pure, put, read_field. by rewrite Hd.
Qed.

Lemma getitem_dict o m key :
  o !! config_data_attr = Some (VDict m) →
  __getitem__ o key = match m !! key with
                      | Some v => Ok v
                      | None => Raise (Exn KeyError key)
                      end.
Proof. intros Hd. unfold __getitem__, read_field. by rewrite Hd. Qed.

(** *** Construction *)

Lemma new_fresh_store file_path config_loader_ :
  new file_path config_loader_ = (Ok tt, fresh_store file_path config_loader_).
Proof.
  unfold new, __init__, bind.
  rewrite setattr_field_marker by (done || apply type_lookup_fields).
  rewrite setattr_field_marker;
    [|rewrite ?marker_after_insert; [done|str_neq..]|apply type_lookup_fields].
  rewrite setattr_field_marker;
    [|rewrite ?marker_after_insert; [done|str_neq..]|apply type_lookup_fields].
  rewrite setattr_field_marker;
    [|rewrite ?marker_after_insert; [done|str_neq..]|apply type_lookup_fields].
  rewrite setattr_field_marker;
    [done|rewrite ?marker_after_insert; [done|str_neq..]|apply type_lookup_fields].
Qed.

Lemma fresh_store_lookup file_path config_loader_ :
  let o := fresh_store file_path config_loader_ in
  o !! config_data_attr = Some (VDict ∅) ∧
  o !! initialized_attr = Some (VBool false) ∧
  o !! config_file_type_attr = Some VNone ∧
  o !! config_file_path_attr = Some file_path ∧
  o !! config_loader_attr = Some config_loader_ ∧
  o !! "__config" = None.
Proof.
  unfold fresh_store. repeat split;
    repeat first [ rewrite lookup_insert_eq; reflexivity
                 | rewrite lookup_insert_ne by str_neq ];
    try reflexivity.
Qed.

Lemma fresh_store_constructed file_path config_loader_ :
  constructed (fresh_store file_path config_loader_).
Proof.
  destruct (fresh_store_lookup file_path config_loader_)
    as (Hd & Hi & Ht & Hp & Hl & Hm).
  split; [unfold config_marker_is_none; by rewrite Hm|eauto..].
Qed.

End AttributeFacts.

(** ** The store: loading and saving *)

Section StoreFacts.
Context {lib : Library} {interp : Interpreter}.
Import ConfigLoaderBase ConfigManager Store.

#[local] Ltac str_neq :=
  let E := fresh in intros E; vm_compute in E; discriminate E.

Lemma constructed_current o :
  constructed o →
  o !! config_file_path_attr = Some (current_path o) ∧
  o !! config_loader_attr = Some (current_loader o).
Proof.
  intros [_ _ _ _ [p Hp] [l Hl]]. unfold current_path, current_loader.
  by rewrite Hp, Hl.
Qed.

Lemma py_or_read {S} (a cur : pyval) (m : M S pyval) s :
  m s = (Ok cur, s) → py_or a m s = (Ok (effective a cur), s).
Proof. intros Hm. unfold py_or, effective. by destruct (truthy a). Qed.

Lemma retargeted_marker p k l o :
  config_marker_is_none (retargeted p k l o) = config_marker_is_none o.
Proof. unfold retargeted. by rewrite !marker_after_insert by str_neq. Qed.

Lemma retargeted_lookup p k l o :
  retargeted p k l o !! config_loader_attr = Some (VLoader k l) ∧
  retargeted p k l o !! config_file_type_attr = Some (VStr (file_type k)) ∧
  retargeted p k l o !! config_file_path_attr = Some p ∧
  retargeted p k l o !! config_data_attr = o !! config_data_attr ∧
  retargeted p k l o !! initialized_attr = o !! initialized_attr.
Proof.
  unfold retargeted. repeat split;
    repeat first [ rewrite lookup_insert_eq; reflexivity
                 | rewrite lookup_insert_ne by str_neq ];
    reflexivity.
Qed.

(** [__load_config_file], step by step. *)
Lemma load_config_file_steps o w k l p :
  config_marker_is_none o = true →
  o !! config_loader_attr = Some (VLoader k l) →
  o !! config_file_path_attr = Some p →
  __load_config_file (State o w) =
    match load_config k l p w with
    | (Raise e, w1) => (Raise e, State o w1)
    | (Ok v, w1) =>
        if negb (is_dict v) then
          (Raise (Exn ValueError "Loaded config data must be a dictionary"), State o w1)
        else if negb (truthy v) then
          (Raise (Exn ValueError "Loaded config data is empty"), State o w1)
        else
          (Ok VNone,
           State (<[initialized_attr := VBool true]> (<[config_data_attr := v]> o)) w1)
    end.
Proof.
  intros Hm Hl Hp. unfold __load_config_file, bind, read. simpl.
  rewrite (getattr_config_loader _ _ Hl). simpl.
  unfold bind, read. simpl.
  rewrite (getattr_field o _ p) by (done || apply type_lookup_fields).
  unfold on_world. simpl.
  destruct (load_config k l p w) as [[v|e] w1]; [|done].
  destruct (negb (is_dict v)); [done|].
  destruct (negb (truthy v)); [done|].
  unfold on_self. simpl.
  rewrite setattr_field_marker by (done || apply type_lookup_fields).
  rewrite setattr_field_marker; [done| |apply type_lookup_fields].
  simpl. rewrite marker_after_insert; [done|str_neq].
Qed.

(** [load_config_from_file]: both setters run first. *)
Lemma load_config_from_file_steps o w loader file_path k l :
  constructed o →
  is_str_or_path (effective file_path (current_path o)) = true →
  effective loader (current_loader o) = VLoader k l →
  load_config_from_file loader file_path (State o w) =
    __load_config_file
      (State (retargeted (effective file_path (current_path o)) k l o) w).
Proof.
  intros Hc Hvalid Hloader.
  destruct (constructed_current o Hc) as [Hp Hl].
  pose proof (marker_none o Hc) as Hm.
  unfold load_config_from_file.
  unfold bind at 1.
  rewrite (py_or_read file_path (current_path o)).
  2:{ unfold read. simpl.
      by rewrite (getattr_field o _ (current_path o))
        by (done || apply type_lookup_fields). }
  unfold bind at 1. unfold on_self at 1. simpl.
  unfold __setattr__ at 1. rewrite setattr_over_marker by done.
  change (object_setattr "config_file_path") with set_config_file_path.
  rewrite set_config_file_path_ok by done.
  set (o1 := <[config_file_path_attr := _]> o).
  assert (Hm1 : config_marker_is_none o1 = true).
  { unfold o1. rewrite marker_after_insert; [done|str_neq]. }
  unfold bind at 1.
  rewrite (py_or_read loader (current_loader o)).
  2:{ unfold read. simpl.
      rewrite (getattr_field o1 _ (current_loader o)); [done|apply type_lookup_fields|].
      unfold o1. rewrite lookup_insert_ne; [done|str_neq]. }
  rewrite Hloader.
  unfold bind at 1. unfold on_self at 1. simpl.
  unfold __setattr__ at 1. rewrite setattr_over_marker by done.
  change (object_setattr "config_loader") with set_config_loader.
  by rewrite set_config_loader_ok by done.
Qed.

(** The whole of a load whose setters accept their values. *)
Lemma load_config_from_file_result o w loader file_path k l :
  constructed o →
  is_str_or_path (effective file_path (current_path o)) = true →
  effective loader (current_loader o) = VLoader k l →
  load_config_from_file loader file_path (State o w) =
    let p := effective file_path (current_path o) in
    let o1 := retargeted p k l o in
    match load_config k l p w with
    | (Raise e, w1) => (Raise e, State o1 w1)
    | (Ok v, w1) =>
        if negb (is_dict v) then
          (Raise (Exn ValueError "Loaded config data must be a dictionary"), State o1 w1)
        else if negb (truthy v) then
          (Raise (Exn ValueError "Loaded config data is empty"), State o1 w1)
        else
          (Ok VNone,
           State (<[initialized_attr := VBool true]> (<[config_data_attr := v]> o1)) w1)
    end.
Proof.
  intros Hc Hvalid Hloader.
  rewrite (load_config_from_file_steps o w loader file_path k l) by done.
  destruct (retargeted_lookup (effective file_path (current_path o)) k l o)
    as (Hl & _ & Hp & _).
  apply load_config_file_steps; [|done..].
  rewrite retargeted_marker. by apply marker_none.
Qed.

(** A load with an invalid effective path or loader stops in the setter. *)
Lemma load_rejects_path o w loader file_path :
  constructed o →
  is_str_or_path (effective file_path (current_path o)) = false →
  ∃ msg, load_config_from_file loader file_path (State o w)
         = (Raise (Exn ValueError msg), State o w).
Proof.
  intros Hc Hbad.
  destruct (constructed_current o Hc) as [Hp Hl].
  pose proof (marker_none o Hc) as Hm.
  destruct (set_config_file_path_rejects _ o Hbad) as [msg Hmsg].
  exists msg. unfold load_config_from_file.
  unfold bind at 1.
  rewrite (py_or_read file_path (current_path o)).
  2:{ unfold read. simpl.
      by rewrite (getattr_field o _ (current_path o))
        by (done || apply type_lookup_fields). }
  unfold bind at 1. unfold on_self at 1. simpl.
  unfold __setattr__ at 1. rewrite setattr_over_marker by done.
  change (object_setattr "config_file_path") with set_config_file_path.
  by rewrite Hmsg.
Qed.

Lemma load_rejects_loader o w loader file_path :
  constructed o →
  is_str_or_path (effective file_path (current_path o)) = true →
  is_loader (effective loader (current_loader o)) = false →
  ∃ msg, load_config_from_file loader file_path (State o w)
         = (Raise (Exn ValueError msg),
            State (<[config_file_path_attr := effective file_path (current_path o)]> o) w).
Proof.
  intros Hc Hvalid Hbad.
  destruct (constructed_current o Hc) as [Hp Hl].
  pose proof (marker_none o Hc) as Hm.
  set (o1 := <[config_file_path_attr := effective file_path (current_path o)]> o).
  destruct (set_config_loader_rejects _ o1 Hbad) as [msg Hmsg].
  exists msg. unfold load_config_from_file.
  unfold bind at 1.
  rewrite (py_or_read file_path (current_path o)).
  2:{ unfold read. simpl.
      by rewrite (getattr_field o _ (current_path o))
        by (done || apply type_lookup_fields). }
  unfold bind at 1. unfold on_self at 1. simpl.
  unfold __setattr__ at 1. rewrite setattr_over_marker by done.
  change (object_setattr "config_file_path") with set_config_file_path.
  rewrite set_config_file_path_ok by done. fold o1.
  assert (Hm1 : config_marker_is_none o1 = true).
  { unfold o1. rewrite marker_after_insert; [done|str_neq]. }
  unfold bind at 1.
  rewrite (py_or_read loader (current_loader o)).
  2:{ unfold read. simpl.
      rewrite (getattr_field o1 _ (current_loader o)); [done|apply type_lookup_fields|].
      unfold o1. rewrite lookup_insert_ne; [done|str_neq]. }
  unfold bind at 1. unfold on_self at 1. simpl.
  unfold __setattr__ at 1. rewrite setattr_over_marker by done.
  change (object_setattr "config_loader") with set_config_loader.
  by rewrite Hmsg.
Qed.

(** A save with an invalid effective path stops in the setter as well. *)
Lemma save_rejects_path o w file_path :
  constructed o →
  is_str_or_path (effective file_path (current_path o)) = false →
  ∃ msg, save_config_to_file file_path (State o w)
         = (Raise (Exn ValueError msg), State o w).
Proof.
  intros Hc Hbad.
  destruct (constructed_current o Hc) as [Hp Hl].
  pose proof (marker_none o Hc) as Hm.
  destruct (set_config_file_path_rejects _ o Hbad) as [msg Hmsg].
  exists msg. unfold save_config_to_file.
  unfold bind at 1.
  rewrite (py_or_read file_path (current_path o)).
  2:{ unfold read. simpl.
      by rewrite (getattr_field o _ (current_path o))
        by (done || apply type_lookup_fields). }
  unfold bind at 1. unfold on_self at 1. simpl.
  unfold __setattr__ at 1. rewrite setattr_over_marker by done.
  change (object_setattr "config_file_path") with set_config_file_path.
  by rewrite Hmsg.
Qed.

(** [save_config_to_file] with a valid path and a loader in place: the
    loader's answer is dropped. *)
Lemma save_config_to_file_steps o w file_path k l :
  constructed o →
  is_str_or_path (effective file_path (current_path o)) = true →
  current_loader o = VLoader k l →
  save_config_to_file file_path (State o w) =
    let p := effective file_path (current_path o) in
    let saved := save_config k l (current_data o) p w in
    (match saved.1 with Ok _ => Ok VNone | Raise e => Raise e end,
     State (<[config_file_path_attr := p]> o) saved.2).
Proof.
  intros Hc Hvalid Hloader.
  destruct (constructed_current o Hc) as [Hp Hl].
  pose proof (marker_none o Hc) as Hm.
  destruct (data_is_dict o Hc) as [m Hd].
  unfold save_config_to_file.
  unfold bind at 1.
  rewrite (py_or_read file_path (current_path o)).
  2:{ unfold read. simpl.
      by rewrite (getattr_field o _ (current_path o))
        by (done || apply type_lookup_fields). }
  unfold bind at 1. unfold on_self at 1. simpl.
  unfold __setattr__ at 1. rewrite setattr_over_marker by done.
  change (object_setattr "config_file_path") with set_config_file_path.
  rewrite set_config_file_path_ok by done.
  set (p := effective file_path (current_path o)).
  set (o1 := <[config_file_path_attr := p]> o).
  assert (Hl1 : o1 !! config_loader_attr = Some (VLoader k l)).
  { unfold o1. rewrite lookup_insert_ne by str_neq. by rewrite Hl, Hloader. }
  assert (Hd1 : o1 !! config_data_attr = Some (current_data o)).
  { unfold o1, current_data. rewrite lookup_insert_ne by str_neq. by rewrite Hd. }
  assert (Hp1 : o1 !! config_file_path_attr = Some p).
  { unfold o1. by rewrite lookup_insert_eq. }
  unfold bind, read, assert, call_save_config, on_world, ret. simpl.
  rewrite (getattr_config_loader _ _ Hl1). simpl.
  rewrite (getattr_config_loader _ _ Hl1). simpl.
  unfold bind. simpl.
  rewrite (getattr_config_data _ _ Hd1), (getattr_config_file_path _ _ Hp1).
  by destruct (save_config k l (current_data o) p w) as [[v|e] w1].
Qed.

(** A bind passes on what its parts establish about the result. *)
Lemma bind_result {S A B} (P : outcome B → Prop) (m : M S A) (f : A → M S B) s :
  (∀ e, P (Raise e)) → (∀ a s', P (f a s').1) → P (bind m f s).1.
Proof.
  intros He Hf. unfold bind. destruct (m s) as [[a|e] s']; [apply Hf|apply He].
Qed.

(** Whatever happens, [save_config_to_file] evaluates to [None] or
    raises: it never evaluates to a boolean. *)
Lemma save_config_to_file_none file_path s :
  (save_config_to_file file_path s).1 = Ok VNone ∨
  ∃ e, (save_config_to_file file_path s).1 = Raise e.
Proof.
  unfold save_config_to_file.
  repeat (apply bind_result; [by eauto|]; intros ? ?).
  by left.
Qed.

(** *** The class keeps a store [constructed] *)

Lemma constructed_insert o name v :
  constructed o →
  name ≠ "__config" →
  (name = config_data_attr → is_dict v = true) →
  constructed (<[name := v]> o).
Proof.
  intros [Hm [m Hd] Hi Ht Hp Hl] Hn Hv. split.
  - by rewrite marker_after_insert.
  - destruct (decide (name = config_data_attr)) as [->|Hne].
    + destruct v; try (by discriminate (Hv eq_refl)).
      eexists. by rewrite lookup_insert_eq.
    + exists m. by rewrite lookup_insert_ne.
  - apply lookup_insert_is_Some'. by right.
  - apply lookup_insert_is_Some'. by right.
  - apply lookup_insert_is_Some'. by right.
  - apply lookup_insert_is_Some'. by right.
Qed.

Lemma setattr_constructed name v o :
  constructed o →
  name ≠ "__config" →
  (name = config_data_attr → is_dict v = true) →
  interpreter_owned name = false →
  constructed (__setattr__ name v o).2.
Proof.
  intros Hc Hn Hv Ho. unfold __setattr__.
  rewrite setattr_over_marker by (by apply marker_none).
  unfold object_setattr. unfold interpreter_owned in Ho.
  destruct (type_lookup name) as [[| | | |a]|]; simpl.
  - destruct (is_loader v) eqn:Hl.
    + destruct v; try discriminate.
      rewrite set_config_loader_ok by (by apply marker_none). simpl.
      apply constructed_insert; [|str_neq|str_neq].
      apply constructed_insert; [done|str_neq|str_neq].
    + by destruct (set_config_loader_rejects v o Hl) as [msg ->].
  - done.
  - destruct (is_str_or_path v) eqn:Hp.
    + rewrite set_config_file_path_ok by (done || by apply marker_none). simpl.
      apply constructed_insert; [done|str_neq|str_neq].
    + by destruct (set_config_file_path_rejects v o Hp) as [msg ->].
  - by apply constructed_insert.
  - rewrite Ho. by apply constructed_insert.
  - by apply constructed_insert.
Qed.

Lemma setitem_constructed key v o :
  constructed o → constructed (__setitem__ key v o).2.
Proof.
  intros Hc. destruct (data_is_dict o Hc) as [m Hd].
  rewrite (setitem_dict o m) by done. simpl.
  apply constructed_insert; [done|str_neq|done].
Qed.

Lemma preserves_bind {A B} (m : M state A) (f : A → M state B) :
  preserves m → (∀ a, preserves (f a)) → preserves (bind m f).
Proof.
  intros Hm Hf s Hc. unfold bind. specialize (Hm s Hc).
  destruct (m s) as [[a|e] s']; [by apply Hf|done].
Qed.

Lemma preserves_pure {A} (m : M state A) :
  (∀ s, (m s).2 = s) → preserves m.
Proof. intros Hm s Hc. by rewrite Hm. Qed.

Lemma preserves_on_world {A} (m : M world A) : preserves (on_world m).
Proof. intros s Hc. unfold on_world. by destruct (m (st_world s)). Qed.

Lemma preserves_py_or a (m : M state pyval) : preserves m → preserves (py_or a m).
Proof.
  intros Hm. unfold py_or. destruct (truthy a); [by apply preserves_pure|done].
Qed.

Lemma preserves_setattr name v :
  name ≠ "__config" →
  (name = config_data_attr → is_dict v = true) →
  interpreter_owned name = false →
  preserves (on_self (__setattr__ name v)).
Proof.
  intros Hn Hv Ho s Hc. unfold on_self.
  pose proof (setattr_constructed name v (st_self s) Hc Hn Hv Ho) as Hc'.
  by destruct (__setattr__ name v (st_self s)).
Qed.

Lemma load_config_file_preserves : preserves __load_config_file.
Proof.
  unfold __load_config_file.
  apply preserves_bind; [by apply preserves_pure|]. intros loader.
  apply preserves_bind.
  { unfold call_load_config. destruct loader; try (by apply preserves_pure).
    apply preserves_bind; [by apply preserves_pure|]. intros a.
    apply preserves_on_world. }
  intros v. destruct (is_dict v) eqn:Hv; simpl; [|by apply preserves_pure].
  destruct (negb (truthy v)); [by apply preserves_pure|].
  apply preserves_bind; [apply preserves_setattr; [str_neq|done|reflexivity]|].
  intros _.
  apply preserves_bind; [apply preserves_setattr; [str_neq|str_neq|reflexivity]|].
  intros _.
  by apply preserves_pure.
Qed.

Theorem load_config_from_file_preserves loader file_path :
  preserves (load_config_from_file loader file_path).
Proof.
  unfold load_config_from_file.
  apply preserves_bind; [apply preserves_py_or; by apply preserves_pure|]. intros p.
  apply preserves_bind; [apply preserves_setattr; [str_neq|str_neq|reflexivity]|].
  intros _.
  apply preserves_bind; [apply preserves_py_or; by apply preserves_pure|]. intros l.
  apply preserves_bind; [apply preserves_setattr; [str_neq|str_neq|reflexivity]|].
  intros _.
  apply load_config_file_preserves.
Qed.

Theorem save_config_to_file_preserves file_path :
  preserves (save_config_to_file file_path).
Proof.
  unfold save_config_to_file.
  apply preserves_bind; [apply preserves_py_or; by apply preserves_pure|]. intros p.
  apply preserves_bind; [apply preserves_setattr; [str_neq|str_neq|reflexivity]|].
  intros _.
  apply preserves_bind; [by apply preserves_pure|]. intros l.
  apply preserves_bind.
  { unfold assert. destruct (negb (is_none l)); by apply preserves_pure. }
  intros _.
  apply preserves_bind; [by apply preserves_pure|]. intros l'.
  apply preserves_bind; [|intros _; by apply preserves_pure].
  unfold call_save_config. destruct l'; try (by apply preserves_pure).
  apply preserves_bind; [by apply preserves_pure|]. intros a1.
  apply preserves_bind; [by apply preserves_pure|]. intros a2.
  apply preserves_on_world.
Qed.

End StoreFacts.

(** ** The claims about the store *)

Section StoreClaims.
Context {lib : Library} {interp : Interpreter}.
Import ConfigLoaderBase ConfigManager Store.

#[local] Ltac str_neq :=
  let E := fresh in intros E; vm_compute in E; discriminate E.

(** The branch of [__setattr__] that writes into the data is taken only
    by an instance that has an attribute [__config]. *)
Lemma setattr_marked_key o m n v x :
  o !! "__config" = Some x → is_none x = false →
  o !! config_data_attr = Some (VDict m) → is_Some (m !! n) →
  __setattr__ n v o = (Ok tt, <[config_data_attr := VDict (<[n := v]> m)]> o).
Proof.
  intros Hx Hn Hd Hk. unfold __setattr__, setattr_over, bind, get, pure, put.
  unfold config_marker_is_none, read_field. rewrite Hx, Hn, Hd. simpl.
  by rewrite bool_decide_eq_true_2.
Qed.

(** A name the class does not define becomes an instance attribute,
    whether or not it is a key of the data, and the data stays as it is. *)
Lemma setattr_plain_name o n v :
  constructed o → type_lookup n = None → n ≠ config_data_attr →
  __setattr__ n v o = (Ok tt, <[n := v]> o) ∧
  <[n := v]> o !! config_data_attr = o !! config_data_attr.
Proof.
  intros Hc Ht Hn. split.
  - apply setattr_field_marker; [by apply marker_none|done].
  - by rewrite lookup_insert_ne.
Qed.

(** A save with a valid path and a loader in place does not raise,
    whether the write succeeds or not, and leaves the data and the
    initialized flag alone. *)
Lemma save_config_to_file_frame o w file_path k l :
  constructed o →
  is_str_or_path (effective file_path (current_path o)) = true →
  current_loader o = VLoader k l →
  (save_config_to_file file_path (State o w)).1 = Ok VNone ∧
  st_self (save_config_to_file file_path (State o w)).2 !! config_data_attr
    = o !! config_data_attr ∧
  st_self (save_config_to_file file_path (State o w)).2 !! initialized_attr
    = o !! initialized_attr.
Proof.
  intros Hc Hvalid Hloader.
  rewrite (save_config_to_file_steps o w file_path k l) by done. cbv zeta.
  destruct (save_config_flag k l (current_data o)
              (effective file_path (current_path o))
              (effective file_path (current_path o)) w) as (b & w' & -> & _).
  { by apply check_path_explicit. }
  simpl. split; [done|]. split; by rewrite lookup_insert_ne by str_neq.
Qed.

(** C2, as amended.  An instance attribute of the same name comes before
    the config key.  For a name that normal lookup does not resolve (no
    instance attribute of that name, no property or method of the class
    body, nothing that the interpreter or [object] provides): a key of
    the data reads as its value, in particular right after
    [store[n] = v]; a name that is no key raises [AttributeError]. *)
Theorem getattr_key_after_fields (o m : gmap string pyval) (n : string) :
  o !! config_data_attr = Some (VDict m) →
  (∀ f, type_lookup n = None → o !! n = Some f → getattr o n = Ok f) ∧
  (unresolved o n → ∀ v, m !! n = Some v → getattr o n = Ok v) ∧
  (unresolved o n → ∀ v, getattr (__setitem__ n v o).2 n = Ok v) ∧
  (unresolved o n → m !! n = None → raises (getattr o n) AttributeError).
Proof.
  intros Hd. repeat split.
  - intros f Ht Hf. by apply getattr_field.
  - intros Hu v Hv. by apply (getattr_hook_key o m).
  - intros [Ht Hn] v. rewrite (setitem_dict o m) by done. simpl.
    assert (n ≠ config_data_attr) by (intros ->; congruence).
    apply (getattr_hook_key _ (<[n := v]> m)).
    + by rewrite lookup_insert_eq.
    + split; [done|]. by rewrite lookup_insert_ne.
    + by rewrite lookup_insert_eq.
  - intros Hu Hv. eexists. by apply (getattr_hook_no_key o m).
Qed.

(** C5.  A load whose setters accept the effective path and loader, and
    whose decode returns [v]: if [v] is no dict or the empty dict, the
    load raises [ValueError] and the data and the initialized flag are
    what they were; if [v] is a non-empty dict, the data is [v] and the
    flag is [True]. *)
Theorem load_validates_decoded (o : gmap string pyval) (w : world)
    (loader file_path : pyval) (k : loader_kind) (l : nat) (v : pyval) :
  constructed o →
  is_str_or_path (effective file_path (current_path o)) = true →
  effective loader (current_loader o) = VLoader k l →
  (load_config k l (effective file_path (current_path o)) w).1 = Ok v →
  (is_dict v = false ∨ v = VDict ∅ →
     raises (load_outcome loader file_path o w) ValueError ∧
     store_after_load loader file_path o w !! config_data_attr
       = o !! config_data_attr ∧
     store_after_load loader file_path o w !! initialized_attr
       = o !! initialized_attr) ∧
  (∀ m, v = VDict m → m ≠ ∅ →
     load_outcome loader file_path o w = Ok VNone ∧
     store_after_load loader file_path o w !! config_data_attr = Some (VDict m) ∧
     store_after_load loader file_path o w !! initialized_attr = Some (VBool true)).
Proof.
  intros Hc Hvalid Hloader Hdec. unfold load_outcome, store_after_load.
  rewrite (load_config_from_file_result o w loader file_path k l) by done.
  destruct (retargeted_lookup (effective file_path (current_path o)) k l o)
    as (_ & _ & _ & Hd & Hi).
  cbv zeta.
  destruct (load_config k l (effective file_path (current_path o)) w) as [r w1].
  simpl in Hdec. subst r. split.
  - intros [Hv | ->].
    + rewrite Hv. simpl. split; [by eexists|done].
    + simpl. rewrite map_size_empty. simpl. split; [by eexists|done].
  - intros m -> Hne. simpl.
    assert (size m ≠ 0) as Hsz by (by rewrite map_size_empty_iff).
    destruct (size m) as [|n] eqn:Hs; [done|]. simpl.
    split; [done|]. split.
    + rewrite lookup_insert_ne by str_neq. by rewrite lookup_insert_eq.
    + by rewrite lookup_insert_eq.
Qed.

(** C9.  A load whose setters accept the effective path and loader and
    which then fails (missing file, decode error, rejected content)
    leaves the store with the new path, the new loader and its format
    tag, and with the data and the initialized flag it had. *)
Theorem failed_load_keeps_target (o : gmap string pyval) (w : world)
    (loader file_path : pyval) (k : loader_kind) (l : nat) :
  constructed o →
  is_str_or_path (effective file_path (current_path o)) = true →
  effective loader (current_loader o) = VLoader k l →
  is_ok (load_outcome loader file_path o w) = false →
  current_path (store_after_load loader file_path o w)
    = effective file_path (current_path o) ∧
  current_loader (store_after_load loader file_path o w) = VLoader k l ∧
  store_after_load loader file_path o w !! config_file_type_attr
    = Some (VStr (file_type k)) ∧
  store_after_load loader file_path o w !! config_data_attr
    = o !! config_data_attr ∧
  store_after_load loader file_path o w !! initialized_attr
    = o !! initialized_attr.
Proof.
  intros Hc Hvalid Hloader. unfold load_outcome, store_after_load.
  rewrite (load_config_from_file_result o w loader file_path k l) by done.
  destruct (retargeted_lookup (effective file_path (current_path o)) k l o)
    as (Hl & Ht & Hp & Hd & Hi).
  cbv zeta. intros Hfail.
  assert (Hst : st_self
            (match load_config k l (effective file_path (current_path o)) w with
             | (Ok v, w1) =>
                 if negb (is_dict v) then
                   (Raise (Exn ValueError "Loaded config data must be a dictionary"),
                    State (retargeted (effective file_path (current_path o)) k l o) w1)
                 else if negb (truthy v) then
                   (Raise (Exn ValueError "Loaded config data is empty"),
                    State (retargeted (effective file_path (current_path o)) k l o) w1)
                 else
                   (Ok VNone,
                    State (<[initialized_attr := VBool true]>
                             (<[config_data_attr := v]>
                                (retargeted (effective file_path (current_path o)) k l o)))
                          w1)
             | (Raise e, w1) =>
                 (Raise e,
                  State (retargeted (effective file_path (current_path o)) k l o) w1)
             end).2
          = retargeted (effective file_path (current_path o)) k l o).
  { destruct (load_config k l (effective file_path (current_path o)) w)
      as [[v|e] w1]; [|done].
    destruct (negb (is_dict v)); [done|].
    destruct (negb (truthy v)); [done|]. discriminate Hfail. }
  rewrite Hst. unfold current_path at 1, current_loader. by rewrite Hp, Hl.
Qed.

(** A save never passes the loader through its setter: with a valid
    path, a loader that is [None] fails the assertion and any other
    value that is no loader has no [save_config]. *)
Lemma save_without_loader o w file_path :
  constructed o →
  is_str_or_path (effective file_path (current_path o)) = true →
  is_loader (current_loader o) = false →
  raises (save_config_to_file file_path (State o w)).1
    (if is_none (current_loader o) then AssertionError else AttributeError).
Proof.
  intros Hc Hvalid Hbad.
  destruct (constructed_current o Hc) as [Hp Hl].
  pose proof (marker_none o Hc) as Hm.
  unfold save_config_to_file.
  unfold bind at 1.
  rewrite (py_or_read file_path (current_path o)).
  2:{ unfold read. simpl.
      by rewrite (getattr_field o _ (current_path o))
        by (done || apply type_lookup_fields). }
  unfold bind at 1. unfold on_self at 1. simpl.
  unfold __setattr__ at 1. rewrite setattr_over_marker by done.
  change (object_setattr "config_file_path") with set_config_file_path.
  rewrite set_config_file_path_ok by done.
  set (o1 := <[config_file_path_attr := _]> o).
  assert (Hl1 : o1 !! config_loader_attr = Some (current_loader o)).
  { unfold o1. by rewrite lookup_insert_ne by str_neq. }
  unfold bind, read, assert, call_save_config, raise, ret. simpl.
  rewrite (getattr_config_loader _ _ Hl1).
  destruct (current_loader o); try discriminate Hbad; simpl;
    rewrite ?(getattr_config_loader _ _ Hl1); by eexists.
Qed.

(** C10, as amended.  The constructor succeeds on every pair of
    arguments and stores them as they are.  A path that is neither str
    nor Path is rejected with [ValueError] by the next load, the next
    save and an assignment to the property, whatever the loader is.
    With a valid path, a loader that is no loader is rejected with
    [ValueError] by the next load and by an assignment to the property;
    the next save does not pass it through the setter: a loader that is
    [None] fails the assertion ([AssertionError]) and any other value
    has no [save_config] ([AttributeError]). *)
Theorem constructor_stores_unvalidated (file_path config_loader_ : pyval) :
  ∃ o, new file_path config_loader_ = (Ok tt, o) ∧
       o !! config_file_path_attr = Some file_path ∧
       o !! config_loader_attr = Some config_loader_ ∧
       o !! config_data_attr = Some (VDict ∅) ∧
       o !! initialized_attr = Some (VBool false) ∧
       ∀ w,
         if is_str_or_path file_path then
           if is_loader config_loader_ then True
           else
             raises (load_config_from_file VNone VNone (State o w)).1 ValueError ∧
             raises (__setattr__ "config_loader" config_loader_ o).1 ValueError ∧
             raises (save_config_to_file VNone (State o w)).1
               (if is_none config_loader_ then AssertionError else AttributeError)
         else
           raises (load_config_from_file VNone VNone (State o w)).1 ValueError ∧
           raises (save_config_to_file VNone (State o w)).1 ValueError ∧
           raises (__setattr__ "config_file_path" file_path o).1 ValueError.
Proof.
  exists (fresh_store file_path config_loader_).
  destruct (fresh_store_lookup file_path config_loader_)
    as (Hd & Hi & Ht & Hp & Hl & Hm).
  pose proof (fresh_store_constructed file_path config_loader_) as Hc.
  split; [apply new_fresh_store|]. do 4 (split; [done|]). intros w.
  assert (Hcp : current_path (fresh_store file_path config_loader_) = file_path).
  { unfold current_path. by rewrite Hp. }
  assert (Hcl : current_loader (fresh_store file_path config_loader_) = config_loader_).
  { unfold current_loader. by rewrite Hl. }
  destruct (is_str_or_path file_path) eqn:Hvalid.
  - destruct (is_loader config_loader_) eqn:Hloader; [done|]. split; [|split].
    + destruct (load_rejects_loader _ w VNone VNone Hc) as [msg ->].
      * unfold effective. simpl. by rewrite Hcp.
      * unfold effective. simpl. by rewrite Hcl.
      * by eexists.
    + unfold __setattr__. rewrite setattr_over_marker by (by apply marker_none).
      change (object_setattr "config_loader") with set_config_loader.
      destruct (set_config_loader_rejects config_loader_
                  (fresh_store file_path config_loader_) Hloader) as [msg ->].
      by eexists.
    + rewrite <- Hcl at 2. apply save_without_loader; [done| |by rewrite Hcl].
      unfold effective. simpl. by rewrite Hcp.
  - split; [|split].
    + destruct (load_rejects_path _ w VNone VNone Hc) as [msg ->].
      * unfold effective. simpl. by rewrite Hcp.
      * by eexists.
    + destruct (save_rejects_path _ w VNone Hc) as [msg ->].
      * unfold effective. simpl. by rewrite Hcp.
      * by eexists.
    + unfold __setattr__. rewrite setattr_over_marker by (by apply marker_none).
      change (object_setattr "config_file_path") with set_config_file_path.
      destruct (set_config_file_path_rejects file_path
                  (fresh_store file_path config_loader_) Hvalid) as [msg ->].
      by eexists.
Qed.

(** A missing file surfaces from a load of the store unchanged. *)
Lemma load_config_from_file_missing o w loader file_path k l s :
  constructed o →
  path_text (effective file_path (current_path o)) = Some s →
  effective loader (current_loader o) = VLoader k l →
  w_files w !! s = None →
  (load_config_from_file loader file_path (State o w)).1
  = Raise (Exn FileNotFoundError ("File not found: " +:+ s)).
Proof.
  intros Hc Hp Hloader Hs.
  assert (is_str_or_path (effective file_path (current_path o)) = true) as Hvalid.
  { by destruct (effective file_path (current_path o)). }
  rewrite (load_config_from_file_result o w loader file_path k l) by done.
  cbv zeta.
  rewrite (load_config_not_found k l _ (effective file_path (current_path o)) s);
    [done|by apply check_path_explicit|done..].
Qed.

End StoreClaims.

(** ** The claims on worked inputs *)

(** The concrete library reads the texts of the repository's tests the
    way the tests expect, and prints the mapping of [test_save_config_yaml]
    as the test expects. *)
Lemma fragment_reads_test_texts :
  Fragment.json_parse Examples.json_text = Ok Examples.key_value ∧
  Fragment.yaml_parse Examples.yaml_text = Ok Examples.key_value ∧
  Fragment.yaml_emit (VDict {[ "key" := VStr "new_value" ]})
  = ("key: new_value" +:+ Fragment.nl, None).
Proof. vm_compute. repeat split. Qed.

(** What comes from the interpreter and from [object], on the example
    store with the concrete interpreter: a config key [__doc__] does
    not read as an attribute (the class attribute [None] is found
    first), a key [__repr__] neither, and [store.__dict__ = {}] is taken
    by the interpreter's descriptor, which replaces the whole instance
    [__dict__]. *)
Lemma interpreter_names_on_the_example_store :
  ConfigManager.getattr (interp := Fragment.interpreter)
    (ConfigManager.__setitem__ "__doc__" (VStr "x") Examples.store).2 "__doc__"
  = Ok VNone ∧
  ConfigManager.getattr (interp := Fragment.interpreter)
    (ConfigManager.__setitem__ "__repr__" (VStr "x") Examples.store).2 "__repr__"
  = Ok (VMethod "__repr__") ∧
  (ConfigManager.__setattr__ (interp := Fragment.interpreter)
     "__dict__" (VDict ∅) Examples.store).2 = ∅ ∧
  Store.interpreter_owned (interp := Fragment.interpreter) "__dict__" = true ∧
  Store.interpreter_owned (interp := Fragment.interpreter) "__class__" = true.
Proof. vm_compute. repeat split. Qed.

(** C1.  The claim: assigning [store.n = v] when [n] is a key of the
    data updates [data[n]].  The code tests
    [self.__dict__.get("__config") is None], and no instance ever has an
    attribute of that name, so every assignment goes to
    [object.__setattr__]: with [store['key'] = 'a'] done, [store.key = 'b']
    succeeds, [store['key']] is still ['a'], and the instance has gained
    an attribute [key] holding ['b']. *)
Theorem setattr_existing_key_bypasses_data :
  ConfigManager.__contains__ Examples.store_a "key" = Ok true ∧
  (ConfigManager.__setattr__ (interp := Fragment.interpreter) "key" (VStr "b") Examples.store_a).1 = Ok tt ∧
  ConfigManager.__getitem__
    (ConfigManager.__setattr__ (interp := Fragment.interpreter) "key" (VStr "b") Examples.store_a).2 "key"
  = Ok (VStr "a") ∧
  (ConfigManager.__setattr__ (interp := Fragment.interpreter) "key" (VStr "b") Examples.store_a).2 !! "key"
  = Some (VStr "b").
Proof. vm_compute. repeat split. Qed.

(** C2 as claimed fails: with [store['is_config_initialized'] = 'x']
    done, the name is a key of the data, and [store.is_config_initialized]
    is still the instance attribute [False]. *)
Lemma declared_field_shadows_key :
  ¬ (∀ (o m : gmap string pyval) (n : string) (v : pyval),
       Store.constructed o →
       o !! ConfigManager.config_data_attr = Some (VDict m) →
       m !! n = Some v →
       ConfigManager.getattr (interp := Fragment.interpreter) o n = Ok v).
Proof.
  intros Hclaim.
  specialize (Hclaim
    (ConfigManager.__setitem__ "is_config_initialized" (VStr "x") Examples.store).2
    {[ "is_config_initialized" := VStr "x" ]}
    "is_config_initialized" (VStr "x")).
  assert (ConfigManager.getattr (interp := Fragment.interpreter)
            (ConfigManager.__setitem__ "is_config_initialized" (VStr "x")
               Examples.store).2
            "is_config_initialized" = Ok (VBool false)) as Hread
    by (vm_compute; reflexivity).
  rewrite Hread in Hclaim.
  enough (Ok (VBool false) = Ok (VStr "x")) by discriminate.
  apply Hclaim.
  - apply setitem_constructed. unfold Examples.store.
    rewrite new_fresh_store. apply fresh_store_constructed.
  - vm_compute; reflexivity.
  - vm_compute; reflexivity.
Qed.

(** C10 as claimed fails: a store constructed with a valid path and the
    string ['InvalidLoader'] as loader is not rejected with [ValueError]
    by the next save, which raises [AttributeError]. *)
Lemma save_skips_the_loader_setter :
  ¬ (∀ (file_path config_loader_ : pyval) (w : world),
       is_str_or_path file_path = false ∨ is_loader config_loader_ = false →
       raises (ConfigManager.save_config_to_file (lib := Fragment.library)
                 (interp := Fragment.interpreter) VNone
                 (ConfigManager.State
                    (ConfigManager.new (interp := Fragment.interpreter)
                       file_path config_loader_).2 w)).1
         ValueError).
Proof.
  intros Hclaim.
  destruct (Hclaim (VStr "config.json") (VStr "InvalidLoader") Examples.disk
              (or_intror eq_refl)) as [msg Hmsg].
  vm_compute in Hmsg. discriminate Hmsg.
Qed.

(** On the example store after [store['key'] = 'a']: [store.key]. *)
Lemma getattr_key_after_fields_witness :
  Examples.store_a !! ConfigManager.config_data_attr
    = Some (VDict {[ "key" := VStr "a" ]}) ∧
  Store.unresolved (interp := Fragment.interpreter) Examples.store_a "key" ∧
  ConfigManager.getattr (interp := Fragment.interpreter) Examples.store_a "key" = Ok (VStr "a").
Proof.
  assert (Examples.store_a !! ConfigManager.config_data_attr
            = Some (VDict {[ "key" := VStr "a" ]})) as Hd
    by (vm_compute; reflexivity).
  assert (Store.unresolved (interp := Fragment.interpreter) Examples.store_a "key") as Hu
    by (split; vm_compute; reflexivity).
  split; [exact Hd|]. split; [exact Hu|].
  apply (proj1 (proj2
           (getattr_key_after_fields Examples.store_a {[ "key" := VStr "a" ]} "key" Hd))
           Hu).
  vm_compute; reflexivity.
Defined.

(** C3.  The claim: [save_config_to_file] returns [True] when the write
    succeeds and [False] when it fails.  The body calls the loader's
    [save_config] and drops its answer: after [store['key'] = 'a'], a
    save to a writable path writes the file and evaluates to [None], and
    a save to a path that refuses writing prints the error and evaluates
    to [None] as well. *)
Theorem save_config_to_file_returns_none :
  (ConfigManager.save_config_to_file (lib := Fragment.library)
      (interp := Fragment.interpreter) (VStr "out.json")
     (ConfigManager.State Examples.store_a Examples.disk)).1 = Ok VNone ∧
  w_files (ConfigManager.st_world
    (ConfigManager.save_config_to_file (lib := Fragment.library)
      (interp := Fragment.interpreter) (VStr "out.json")
       (ConfigManager.State Examples.store_a Examples.disk)).2) !! "out.json"
  = Some (Fragment.json_emit (VDict {[ "key" := VStr "a" ]})).1 ∧
  (ConfigManager.save_config_to_file (lib := Fragment.library)
      (interp := Fragment.interpreter) (VStr "locked.json")
     (ConfigManager.State Examples.store_a Examples.disk)).1 = Ok VNone ∧
  w_stdout (ConfigManager.st_world
    (ConfigManager.save_config_to_file (lib := Fragment.library)
      (interp := Fragment.interpreter) (VStr "locked.json")
       (ConfigManager.State Examples.store_a Examples.disk)).2)
  = ["Error saving config: Permission denied"].
Proof. vm_compute. repeat split. Qed.

Lemma examples_store_constructed : Store.constructed Examples.store.
Proof.
  unfold Examples.store. rewrite new_fresh_store. apply fresh_store_constructed.
Qed.

(** On the example store and disk: a load without arguments. *)
Lemma load_validates_decoded_witness :
  (Store.constructed Examples.store ∧
   is_str_or_path (Store.effective VNone (Store.current_path Examples.store)) = true ∧
   Store.effective VNone (Store.current_loader Examples.store) = VLoader Json 0 ∧
   (ConfigLoaderBase.load_config (lib := Fragment.library) Json 0
      (Store.effective VNone (Store.current_path Examples.store)) Examples.disk).1
   = Ok Examples.key_value) ∧
  Store.load_outcome (lib := Fragment.library)
      (interp := Fragment.interpreter) VNone VNone Examples.store Examples.disk
    = Ok VNone ∧
  Store.store_after_load (lib := Fragment.library)
      (interp := Fragment.interpreter) VNone VNone Examples.store
    Examples.disk !! ConfigManager.config_data_attr = Some Examples.key_value ∧
  Store.store_after_load (lib := Fragment.library)
      (interp := Fragment.interpreter) VNone VNone Examples.store
    Examples.disk !! ConfigManager.initialized_attr = Some (VBool true).
Proof.
  assert (Hv : is_str_or_path
                 (Store.effective VNone (Store.current_path Examples.store)) = true)
    by (vm_compute; reflexivity).
  assert (Hl : Store.effective VNone (Store.current_loader Examples.store)
               = VLoader Json 0) by (vm_compute; reflexivity).
  assert (Hd : (ConfigLoaderBase.load_config (lib := Fragment.library) Json 0
                  (Store.effective VNone (Store.current_path Examples.store))
                  Examples.disk).1 = Ok Examples.key_value)
    by (vm_compute; reflexivity).
  split; [split; [apply examples_store_constructed|split; [exact Hv|split; [exact Hl|exact Hd]]]|].
  apply (proj2 (load_validates_decoded (lib := Fragment.library)
           (interp := Fragment.interpreter) Examples.store
                  Examples.disk VNone VNone Json 0 Examples.key_value
                  examples_store_constructed Hv Hl Hd)
           {[ "key" := VStr "value" ]} eq_refl).
  apply map_non_empty_singleton.
Defined.

(** On the example store and disk: a load of a missing file with a new
    YAML loader. *)
Lemma failed_load_keeps_target_witness :
  (Store.constructed Examples.store ∧
   is_str_or_path
     (Store.effective (VStr "absent.yaml") (Store.current_path Examples.store)) = true ∧
   Store.effective (VLoader Yaml 1) (Store.current_loader Examples.store)
     = VLoader Yaml 1 ∧
   is_ok (Store.load_outcome (lib := Fragment.library)
      (interp := Fragment.interpreter) (VLoader Yaml 1)
            (VStr "absent.yaml") Examples.store Examples.disk) = false) ∧
  Store.current_path
    (Store.store_after_load (lib := Fragment.library)
      (interp := Fragment.interpreter) (VLoader Yaml 1)
       (VStr "absent.yaml") Examples.store Examples.disk) = VStr "absent.yaml" ∧
  Store.current_loader
    (Store.store_after_load (lib := Fragment.library)
      (interp := Fragment.interpreter) (VLoader Yaml 1)
       (VStr "absent.yaml") Examples.store Examples.disk) = VLoader Yaml 1 ∧
  Store.store_after_load (lib := Fragment.library)
      (interp := Fragment.interpreter) (VLoader Yaml 1)
    (VStr "absent.yaml") Examples.store Examples.disk
    !! ConfigManager.config_file_type_attr = Some (VStr "yaml") ∧
  Store.store_after_load (lib := Fragment.library)
      (interp := Fragment.interpreter) (VLoader Yaml 1)
    (VStr "absent.yaml") Examples.store Examples.disk
    !! ConfigManager.config_data_attr = Some (VDict ∅) ∧
  Store.store_after_load (lib := Fragment.library)
      (interp := Fragment.interpreter) (VLoader Yaml 1)
    (VStr "absent.yaml") Examples.store Examples.disk
    !! ConfigManager.initialized_attr = Some (VBool false).
Proof.
  split; [split; [apply examples_store_constructed|repeat split; vm_compute; reflexivity]|].
  apply (failed_load_keeps_target (lib := Fragment.library)
           (interp := Fragment.interpreter) Examples.store Examples.disk
           (VLoader Yaml 1) (VStr "absent.yaml") Yaml 1 examples_store_constructed);
    vm_compute; reflexivity.
Defined.

(** ** Further properties: keyed access *)

Section KeyedAccess.
Context {interp : Interpreter}.
Import ConfigManager Store.

#[local] Ltac str_neq :=
  let E := fresh in intros E; vm_compute in E; discriminate E.

Lemma contains_dict o m key :
  o !! config_data_attr = Some (VDict m) →
  __contains__ o key = Ok (bool_decide (is_Some (m !! key))).
Proof. intros Hd. unfold __contains__, read_field. by rewrite Hd. Qed.

Lemma len_dict o m :
  o !! config_data_attr = Some (VDict m) → __len__ o = Ok (size m).
Proof. intros Hd. unfold __len__, read_field. by rewrite Hd. Qed.

Lemma iter_dict o m :
  o !! config_data_attr = Some (VDict m) → __iter__ o = Ok (map_to_list m).
Proof. intros Hd. unfold __iter__, read_field. by rewrite Hd. Qed.

Lemma to_dict_dict o v :
  o !! config_data_attr = Some v → to_dict o = Ok v.
Proof. intros Hd. unfold to_dict, read_field. by rewrite Hd. Qed.

(** X1.  A keyed write succeeds on every store; the key then reads back
    as the value written, every other key reads as before, and no
    attribute of the store other than the data changes (the initialized
    flag in particular stays as it was). *)
Theorem keyed_write_then_read (o : gmap string pyval) (key : string) (v : pyval) :
  constructed o →
  (__setitem__ key v o).1 = Ok tt ∧
  __getitem__ (__setitem__ key v o).2 key = Ok v ∧
  (∀ key', key' ≠ key →
     __getitem__ (__setitem__ key v o).2 key' = __getitem__ o key') ∧
  (∀ name, name ≠ config_data_attr →
     (__setitem__ key v o).2 !! name = o !! name).
Proof.
  intros Hc. destruct (data_is_dict o Hc) as [m Hd].
  rewrite (setitem_dict o m) by done. simpl.
  assert (Hd' : <[config_data_attr := VDict (<[key := v]> m)]> o !! config_data_attr
                = Some (VDict (<[key := v]> m))) by (by rewrite lookup_insert_eq).
  split; [done|]. split; [|split].
  - rewrite (getitem_dict _ _ _ Hd'). by rewrite lookup_insert_eq.
  - intros key' Hne. rewrite (getitem_dict _ _ _ Hd'), (getitem_dict _ _ _ Hd).
    by rewrite lookup_insert_ne.
  - intros name Hne. by rewrite lookup_insert_ne.
Qed.

(** X2.  [key in store] is true exactly when [store[key]] returns a
    value; for a missing key [store[key]] raises [KeyError]. *)
Theorem keyed_read_missing (o : gmap string pyval) (key : string) :
  constructed o →
  __contains__ o key = Ok (is_ok (__getitem__ o key)) ∧
  (is_ok (__getitem__ o key) = false → raises (__getitem__ o key) KeyError).
Proof.
  intros Hc. destruct (data_is_dict o Hc) as [m Hd].
  rewrite (contains_dict o m), (getitem_dict o m) by done.
  destruct (m !! key) as [v|]; simpl.
  - split; [|done]. by rewrite ?bool_decide_eq_true_2 by eauto.
  - split; [|by eexists]. by rewrite ?bool_decide_eq_false_2 by (by intros [? ?]).
Qed.

(** X3.  [len(store)] counts the keys: a keyed write to a new key adds
    one, a write to an existing key leaves it, and the length is zero
    exactly when no key is in the store. *)
Theorem len_counts_keys (o : gmap string pyval) (key : string) (v : pyval) :
  constructed o →
  ∃ n, __len__ o = Ok n ∧
       __len__ (__setitem__ key v o).2
       = Ok (if is_ok (__getitem__ o key) then n else S n) ∧
       (n = 0 ↔ ∀ k, __contains__ o k = Ok false).
Proof.
  intros Hc. destruct (data_is_dict o Hc) as [m Hd].
  exists (size m). split; [by apply len_dict|]. split.
  - rewrite (setitem_dict o m) by done. simpl.
    rewrite (len_dict _ (<[key := v]> m)) by (by rewrite lookup_insert_eq).
    rewrite (getitem_dict o m) by done.
    destruct (m !! key) as [x|] eqn:Hk; simpl.
    + f_equal. rewrite <- (insert_id m key x) at 2 by done.
      rewrite <- (insert_delete_eq m key v), <- (insert_delete_eq m key x).
      by rewrite !map_size_insert_None by (by rewrite lookup_delete_eq).
    + by rewrite map_size_insert_None.
  - rewrite map_size_empty_iff. split.
    + intros -> k. by rewrite (contains_dict o ∅).
    + intros Hall. apply map_empty. intros k. specialize (Hall k).
      rewrite (contains_dict o m) in Hall by done.
      destruct (m !! k) eqn:Hk; [|done].
      rewrite bool_decide_eq_true_2 in Hall by eauto. discriminate.
Qed.

(** X4.  Iterating the store yields exactly the pairs [(k, v)] with
    [store[k] == v], each key once, [len(store)] of them (in an order the
    model does not fix). *)
Theorem iter_yields_items (o : gmap string pyval) :
  constructed o →
  ∃ items, __iter__ o = Ok items ∧
           (∀ k v, (k, v) ∈ items ↔ __getitem__ o k = Ok v) ∧
           NoDup items.*1 ∧
           __len__ o = Ok (length items).
Proof.
  intros Hc. destruct (data_is_dict o Hc) as [m Hd].
  exists (map_to_list m). split; [by apply iter_dict|]. split; [|split].
  - intros k v. rewrite elem_of_map_to_list, (getitem_dict o m) by done.
    destruct (m !! k); split; congruence.
  - apply NoDup_fst_map_to_list.
  - rewrite (len_dict o m) by done. by rewrite length_map_to_list.
Qed.

End KeyedAccess.

(** ** Further properties: attributes and properties *)

Section AttributeExtras.
Context {interp : Interpreter}.
Import ConfigManager Store.

#[local] Ltac str_neq :=
  let E := fresh in intros E; vm_compute in E; discriminate E.

Lemma setattr_property_path o p :
  config_marker_is_none o = true →
  __setattr__ "config_file_path" p o = set_config_file_path p o.
Proof. intros Hm. unfold __setattr__. by rewrite setattr_over_marker. Qed.

Lemma setattr_property_loader o v :
  config_marker_is_none o = true →
  __setattr__ "config_loader" v o = set_config_loader v o.
Proof. intros Hm. unfold __setattr__. by rewrite setattr_over_marker. Qed.

(** X5.  Assigning [store.config_file_path = p]: a str or Path is stored
    and read back by the property, and nothing else changes; any other
    value raises [ValueError] and leaves the store as it was. *)
Theorem path_property_round_trip (o : gmap string pyval) (p : pyval) :
  constructed o →
  if is_str_or_path p then
    (__setattr__ "config_file_path" p o).1 = Ok tt ∧
    getattr (__setattr__ "config_file_path" p o).2 "config_file_path" = Ok p ∧
    (∀ name, name ≠ config_file_path_attr →
       (__setattr__ "config_file_path" p o).2 !! name = o !! name)
  else
    raises (__setattr__ "config_file_path" p o).1 ValueError ∧
    (__setattr__ "config_file_path" p o).2 = o.
Proof.
  intros Hc. pose proof (marker_none o Hc) as Hm.
  rewrite setattr_property_path by done.
  destruct (is_str_or_path p) eqn:Hp.
  - rewrite set_config_file_path_ok by done. simpl. split; [done|]. split.
    + apply getattr_config_file_path. by rewrite lookup_insert_eq.
    + intros name Hne. by rewrite lookup_insert_ne.
  - destruct (set_config_file_path_rejects p o Hp) as [msg ->]. simpl.
    split; [by eexists|done].
Qed.

(** X6.  Assigning [store.config_loader = v]: a loader instance is stored
    and read back by the property, the format tag becomes [yaml] or
    [json] after its class, and nothing else changes; any other value
    raises [ValueError] and leaves the store as it was. *)
Theorem loader_property_round_trip (o : gmap string pyval) (v : pyval) :
  constructed o →
  match v with
  | VLoader k l =>
      (__setattr__ "config_loader" v o).1 = Ok tt ∧
      getattr (__setattr__ "config_loader" v o).2 "config_loader" = Ok v ∧
      (__setattr__ "config_loader" v o).2 !! config_file_type_attr
        = Some (VStr (match k with Yaml => "yaml" | Json => "json" end)) ∧
      (∀ name, name ≠ config_loader_attr → name ≠ config_file_type_attr →
         (__setattr__ "config_loader" v o).2 !! name = o !! name)
  | _ =>
      raises (__setattr__ "config_loader" v o).1 ValueError ∧
      (__setattr__ "config_loader" v o).2 = o
  end.
Proof.
  intros Hc. pose proof (marker_none o Hc) as Hm.
  rewrite setattr_property_loader by done.
  destruct (is_loader v) eqn:Hv.
  - destruct v; try discriminate Hv.
    rewrite set_config_loader_ok by done. simpl. split; [done|]. split; [|split].
    + apply getattr_config_loader. by rewrite lookup_insert_eq.
    + rewrite lookup_insert_ne by str_neq. rewrite lookup_insert_eq.
      by destruct k.
    + intros name Hn1 Hn2. by rewrite !lookup_insert_ne.
  - destruct (set_config_loader_rejects v o Hv) as [msg Hmsg].
    destruct v; try discriminate Hv; rewrite Hmsg; simpl;
      (split; [by eexists|done]).
Qed.

(** X7.  [config_data] is a property without setter: assigning to it
    raises [AttributeError] and changes nothing. *)
Theorem config_data_is_read_only (o : gmap string pyval) (v : pyval) :
  constructed o →
  raises (__setattr__ "config_data" v o).1 AttributeError ∧
  (__setattr__ "config_data" v o).2 = o.
Proof.
  intros Hc. unfold __setattr__.
  rewrite setattr_over_marker by (by apply marker_none).
  split; [by eexists|done].
Qed.

(** X8.  The three properties and [to_dict] always read the private
    attributes, whatever keys the data holds and whatever other
    attributes the instance has; what [config_data] and [to_dict] return
    is a dict. *)
Theorem properties_are_never_shadowed (o : gmap string pyval) :
  constructed o →
  getattr o "config_data" = Ok (current_data o) ∧
  getattr o "config_file_path" = Ok (current_path o) ∧
  getattr o "config_loader" = Ok (current_loader o) ∧
  to_dict o = Ok (current_data o) ∧
  ∃ m, current_data o = VDict m.
Proof.
  intros [_ [m Hd] _ _ [p Hp] [l Hl]].
  unfold current_data, current_path, current_loader. rewrite Hd, Hp, Hl. simpl.
  split; [by apply getattr_config_data|].
  split; [by apply getattr_config_file_path|].
  split; [by apply getattr_config_loader|].
  split; [by apply to_dict_dict|by eexists].
Qed.

(** X9.  On a store as the class keeps it, no attribute assignment
    changes the data, be the name a key of the data or not: every key
    reads afterwards as it did before, whether the assignment succeeded
    or raised.  Excepted are the private data attribute itself and the
    data descriptors of the interpreter ([__dict__], [__class__],
    [__weakref__]), whose assignment is the interpreter's business. *)
Theorem attribute_write_leaves_data (o : gmap string pyval) (name : string) (v : pyval) :
  constructed o →
  name ≠ config_data_attr →
  interpreter_owned name = false →
  (__setattr__ name v o).2 !! config_data_attr = o !! config_data_attr ∧
  ∀ key, __getitem__ (__setattr__ name v o).2 key = __getitem__ o key.
Proof.
  intros Hc Hn Hown. pose proof (marker_none o Hc) as Hm.
  assert (Hd : (__setattr__ name v o).2 !! config_data_attr = o !! config_data_attr).
  { unfold __setattr__. rewrite setattr_over_marker by done. unfold object_setattr.
    unfold interpreter_owned in Hown.
    destruct (type_lookup name) as [[| | | |a]|]; simpl.
    - destruct (is_loader v) eqn:Hl.
      + destruct v; try discriminate Hl. rewrite set_config_loader_ok by done.
        simpl. by rewrite !lookup_insert_ne by str_neq.
      + by destruct (set_config_loader_rejects v o Hl) as [msg ->].
    - done.
    - destruct (is_str_or_path v) eqn:Hp.
      + rewrite set_config_file_path_ok by done. simpl.
        by rewrite lookup_insert_ne by str_neq.
      + by destruct (set_config_file_path_rejects v o Hp) as [msg ->].
    - by rewrite lookup_insert_ne.
    - rewrite Hown. simpl. by rewrite lookup_insert_ne.
    - by rewrite lookup_insert_ne. }
  split; [done|]. intros key. unfold __getitem__, read_field. rewrite Hd.
  destruct (o !! config_data_attr) as [d|] eqn:Ho; [done|].
  destruct (data_is_dict o Hc) as [m Hm']. congruence.
Qed.

(** X10.  Once the instance has an attribute [__config] that is not
    [None] (after [setattr(store, "__config", x)]), assigning
    [store.key = v] for a key that is in the data updates [data[key]]
    and changes no other attribute of the instance. *)
Theorem config_marker_enables_data_writes
    (o : gmap string pyval) (x : pyval) (key : string) (v : pyval) :
  constructed o →
  is_none x = false →
  is_ok (__getitem__ o key) = true →
  (__setattr__ "__config" x o).1 = Ok tt ∧
  (__setattr__ key v (__setattr__ "__config" x o).2).1 = Ok tt ∧
  __getitem__ (__setattr__ key v (__setattr__ "__config" x o).2).2 key = Ok v ∧
  (∀ name, name ≠ config_data_attr →
     (__setattr__ key v (__setattr__ "__config" x o).2).2 !! name
     = (__setattr__ "__config" x o).2 !! name).
Proof.
  intros Hc Hx. pose proof (marker_none o Hc) as Hm.
  destruct (data_is_dict o Hc) as [m Hd].
  rewrite (setattr_field_marker "__config" x o) by done. simpl.
  rewrite (getitem_dict o m) by done.
  destruct (m !! key) as [y|] eqn:Hk; [|done]. intros _.
  split; [done|].
  rewrite (setattr_marked_key (<["__config" := x]> o) m key v x);
    [|by rewrite lookup_insert_eq|done|by rewrite lookup_insert_ne by str_neq|eauto].
  simpl. split; [done|]. split.
  - rewrite (getitem_dict _ (<[key := v]> m)) by (by rewrite lookup_insert_eq).
    by rewrite lookup_insert_eq.
  - intros name Hne. by rewrite lookup_insert_ne.
Qed.

End AttributeExtras.

(** On the example store: [store['port'] = 8080]. *)
Lemma keyed_write_then_read_witness :
  Store.constructed Examples.store ∧
  ConfigManager.__getitem__
    (ConfigManager.__setitem__ "port" (VInt 8080) Examples.store).2 "port"
  = Ok (VInt 8080).
Proof.
  split; [apply examples_store_constructed|].
  apply (proj1 (proj2 (keyed_write_then_read Examples.store "port" (VInt 8080)
                         examples_store_constructed))).
Defined.

(** On the example store, which has no key yet. *)
Lemma keyed_read_missing_witness :
  Store.constructed Examples.store ∧
  ConfigManager.__contains__ Examples.store "port"
  = Ok (is_ok (ConfigManager.__getitem__ Examples.store "port")).
Proof.
  split; [apply examples_store_constructed|].
  apply (proj1 (keyed_read_missing Examples.store "port" examples_store_constructed)).
Defined.

(** On the example store: the length before and after a keyed write. *)
Lemma len_counts_keys_witness :
  Store.constructed Examples.store ∧
  ∃ n, ConfigManager.__len__ Examples.store = Ok n ∧
       ConfigManager.__len__
         (ConfigManager.__setitem__ "port" (VInt 8080) Examples.store).2
       = Ok (if is_ok (ConfigManager.__getitem__ Examples.store "port")
             then n else S n).
Proof.
  split; [apply examples_store_constructed|].
  destruct (len_counts_keys Examples.store "port" (VInt 8080)
              examples_store_constructed) as (n & Hn & Hn' & _).
  exists n. split; [exact Hn|exact Hn'].
Defined.

(** On the example store. *)
Lemma iter_yields_items_witness :
  Store.constructed Examples.store ∧
  ∃ items, ConfigManager.__iter__ Examples.store = Ok items ∧
           ConfigManager.__len__ Examples.store = Ok (length items).
Proof.
  split; [apply examples_store_constructed|].
  destruct (iter_yields_items Examples.store examples_store_constructed)
    as (items & Hi & _ & _ & Hl).
  exists items. split; [exact Hi|exact Hl].
Defined.

(** On the example store: [store.config_file_path = Path('other.yaml')]. *)
Lemma path_property_round_trip_witness :
  Store.constructed Examples.store ∧
  ConfigManager.getattr (interp := Fragment.interpreter)
    (ConfigManager.__setattr__ (interp := Fragment.interpreter) "config_file_path" (VPath "other.yaml")
       Examples.store).2 "config_file_path"
  = Ok (VPath "other.yaml").
Proof.
  split; [apply examples_store_constructed|].
  apply (proj1 (proj2 (path_property_round_trip Examples.store (VPath "other.yaml")
                         examples_store_constructed))).
Defined.

(** On the example store: [store.config_loader = YamlConfigLoader()]. *)
Lemma loader_property_round_trip_witness :
  Store.constructed Examples.store ∧
  (ConfigManager.__setattr__ (interp := Fragment.interpreter) "config_loader" (VLoader Yaml 1) Examples.store).2
    !! ConfigManager.config_file_type_attr = Some (VStr "yaml").
Proof.
  split; [apply examples_store_constructed|].
  apply (proj1 (proj2 (proj2 (loader_property_round_trip Examples.store (VLoader Yaml 1)
                                examples_store_constructed)))).
Defined.

(** On the example store: [store.config_data = {}]. *)
Lemma config_data_is_read_only_witness :
  Store.constructed Examples.store ∧
  (ConfigManager.__setattr__ (interp := Fragment.interpreter) "config_data" (VDict ∅) Examples.store).2
  = Examples.store.
Proof.
  split; [apply examples_store_constructed|].
  apply (proj2 (config_data_is_read_only Examples.store (VDict ∅)
                  examples_store_constructed)).
Defined.

(** On the example store. *)
Lemma properties_are_never_shadowed_witness :
  Store.constructed Examples.store ∧
  ConfigManager.getattr (interp := Fragment.interpreter) Examples.store "config_data"
  = Ok (Store.current_data Examples.store).
Proof.
  split; [apply examples_store_constructed|].
  apply (proj1 (properties_are_never_shadowed Examples.store
                  examples_store_constructed)).
Defined.

(** On the example store: [store.verbose = True]. *)
Lemma attribute_write_leaves_data_witness :
  (Store.constructed Examples.store ∧ "verbose" ≠ ConfigManager.config_data_attr ∧
   Store.interpreter_owned (interp := Fragment.interpreter) "verbose" = false) ∧
  (ConfigManager.__setattr__ (interp := Fragment.interpreter) "verbose" (VBool true) Examples.store).2
    !! ConfigManager.config_data_attr
  = Examples.store !! ConfigManager.config_data_attr.
Proof.
  assert ("verbose" ≠ ConfigManager.config_data_attr) as Hne
    by (intros E; vm_compute in E; discriminate E).
  split; [split; [apply examples_store_constructed|split; [exact Hne|reflexivity]]|].
  apply (proj1 (attribute_write_leaves_data (interp := Fragment.interpreter)
                  Examples.store "verbose" (VBool true)
                  examples_store_constructed Hne eq_refl)).
Defined.

Lemma examples_store_a_constructed : Store.constructed Examples.store_a.
Proof. apply setitem_constructed, examples_store_constructed. Qed.

(** On the example store after [store['key'] = 'a']:
    [setattr(store, "__config", True)], then [store.key = 'b']. *)
Lemma config_marker_enables_data_writes_witness :
  (Store.constructed Examples.store_a ∧ is_none (VBool true) = false ∧
   is_ok (ConfigManager.__getitem__ Examples.store_a "key") = true) ∧
  ConfigManager.__getitem__
    (ConfigManager.__setattr__ (interp := Fragment.interpreter) "key" (VStr "b")
       (ConfigManager.__setattr__ (interp := Fragment.interpreter) "__config" (VBool true) Examples.store_a).2).2 "key"
  = Ok (VStr "b").
Proof.
  assert (is_ok (ConfigManager.__getitem__ Examples.store_a "key") = true) as Hk
    by (vm_compute; reflexivity).
  split; [split; [apply examples_store_a_constructed|split; [reflexivity|exact Hk]]|].
  apply (proj1 (proj2 (proj2
           (config_marker_enables_data_writes Examples.store_a (VBool true) "key"
              (VStr "b") examples_store_a_constructed eq_refl Hk)))).
Defined.

(** ** Further properties: the loaders *)

Section LoaderExtras.
Context {lib : Library} {interp : Interpreter}.
Import ConfigLoaderBase.

Lemma attrs_at_set_other self l name v w :
  l ≠ self →
  attrs_at (set_loaders <[self := <[name := v]> (attrs_at w self)]> w) l = attrs_at w l.
Proof. intros Hne. unfold attrs_at. simpl. by rewrite lookup_insert_ne. Qed.

(** The world a [load_config] leaves: the one it found, or that with the
    resolved path stored under the subclass's name. *)
Lemma load_config_world k self file_path w :
  (load_config k self file_path w).2 = w ∨
  ∃ p, (load_config k self file_path w).2
       = set_loaders <[self := <[own_file_path k := p]> (attrs_at w self)]> w.
Proof.
  unfold load_config, bind.
  pose proof (check_path_world self file_path w) as Hw.
  destruct (check_path self file_path w) as [[p|e] w0]; simpl in Hw; subst w0;
    [|by left].
  right. exists p.
  unfold set_attr, get_attr. rewrite attrs_at_set, lookup_insert_eq.
  unfold os_path_exists, read_file, raise, pure.
  destruct (path_text p) as [s|] eqn:Hp; [|done]. simpl.
  destruct (w_files w !! s) as [text|] eqn:Hs; simpl;
    rewrite attrs_at_set, lookup_insert_eq; simpl; rewrite ?Hp, ?Hs; simpl; [|done].
  by destruct (parse (codec_of k) text).
Qed.

(** X11.  [load_config] only reads the file system: whatever its
    argument and outcome, the files, the write permissions and the
    output are as before; of the loaders it changes nothing but the
    calling loader's attribute [__file_path] of its own class. *)
Theorem load_config_only_reads (k : loader_kind) (self : nat) (file_path : pyval)
    (w : world) :
  w_files (load_config k self file_path w).2 = w_files w ∧
  w_denied (load_config k self file_path w).2 = w_denied w ∧
  w_stdout (load_config k self file_path w).2 = w_stdout w ∧
  (∀ l, l ≠ self → attrs_at (load_config k self file_path w).2 l = attrs_at w l) ∧
  (∀ name, name ≠ own_file_path k →
     attrs_at (load_config k self file_path w).2 self !! name
     = attrs_at w self !! name).
Proof.
  destruct (load_config_world k self file_path w) as [-> | [p ->]]; [done|].
  repeat split.
  - intros l Hne. by apply attrs_at_set_other.
  - intros name Hne. by rewrite attrs_at_set, lookup_insert_ne.
Qed.

(** X12.  A file that exists but does not parse: the parser's exception
    leaves [load_config] as it is, for both variants. *)
Theorem load_config_decode_error (k : loader_kind) (self : nat) (p : pyval)
    (s text : string) (e : exn) (w : world) :
  path_text p = Some s →
  w_files w !! s = Some text →
  parse (codec_of k) text = Raise e →
  (load_config k self p w).1 = Raise e.
Proof.
  intros Hp Hs He. by rewrite (load_config_reads k self p s text), He.
Qed.

(** X13.  The assertion of [check_path] is made before the [try] of
    [save_config]: a path argument that is neither [None] nor str nor
    Path makes [save_config] raise [AssertionError] instead of returning
    [False], and nothing is written or printed. *)
Theorem save_config_unresolved_path (k : loader_kind) (self : nat)
    (config file_path : pyval) (w : world) :
  is_none file_path = false → is_str_or_path file_path = false →
  save_config k self config file_path w
  = (Raise (Exn AssertionError "File path must be str or path"), w).
Proof.
  intros Hn Hp. unfold save_config, bind.
  by rewrite check_path_wrong_type.
Qed.

(** X14.  A newly constructed loader of either variant has no path:
    without a path argument both [save_config] and [load_config] raise
    [AssertionError] and change nothing. *)
Theorem new_loader_has_no_path (k : loader_kind) (config : pyval) (w : world) :
  ∃ l, (new k w).1 = Ok (VLoader k l) ∧
       save_config k l config VNone (new k w).2
       = (Raise (Exn AssertionError "File path must be set"), (new k w).2) ∧
       load_config k l VNone (new k w).2
       = (Raise (Exn AssertionError "File path must be set"), (new k w).2).
Proof.
  eexists. split; [reflexivity|].
  assert (Hb : attrs_at (new k w).2 (fresh (dom (w_loaders w))) !! base_file_path
               = Some VNone).
  { unfold attrs_at. simpl. by rewrite lookup_insert_eq. }
  split.
  - unfold save_config, bind. by rewrite check_path_nothing_remembered.
  - unfold load_config, bind. by rewrite check_path_nothing_remembered.
Qed.

(** What a [save_config] with a resolved path does, case by case. *)
Lemma save_config_steps k self config file_path p w :
  check_path self file_path w = (Ok p, w) →
  save_config k self config file_path w =
    match decode_if_str k config with
    | Raise e =>
        (Ok (VBool false),
         World (w_files w) (w_denied w) (w_loaders w)
               (w_stdout w ++ ["Error saving config: " +:+ exn_msg e]))
    | Ok c =>
        match path_text p with
        | None =>
            (Ok (VBool false),
             World (w_files w) (w_denied w) (w_loaders w)
                   (w_stdout w ++ ["Error saving config: " +:+ EmptyString]))
        | Some s =>
            match w_denied w !! s with
            | Some msg =>
                (Ok (VBool false),
                 World (w_files w) (w_denied w) (w_loaders w)
                       (w_stdout w ++ ["Error saving config: " +:+ msg]))
            | None =>
                match (emit (codec_of k) c).2 with
                | Some e =>
                    (Ok (VBool false),
                     World (<[s := (emit (codec_of k) c).1]> (w_files w)) (w_denied w)
                           (w_loaders w)
                           (w_stdout w ++ ["Error saving config: " +:+ exn_msg e]))
                | None =>
                    (Ok (VBool true),
                     World (<[s := (emit (codec_of k) c).1]> (w_files w)) (w_denied w)
                           (w_loaders w) (w_stdout w))
                end
            end
        end
    end.
Proof.
  intros Hc. unfold save_config, bind, try_except. rewrite Hc.
  unfold pure, write_file, print, ret.
  destruct (decode_if_str k config) as [c|e]; [|done].
  destruct (path_text p) as [s|]; [|done].
  destruct (w_denied w !! s) as [msg|]; [done|].
  by destruct (emit (codec_of k) c) as [text [e|]].
Qed.

(** X15.  A save that fails before the file is opened for writing (a
    string input that does not parse, or a path that cannot be opened)
    returns [False], prints one line [Error saving config: ...] and
    leaves every file as it was. *)
Theorem save_config_failure_before_open (k : loader_kind) (self : nat)
    (config file_path p : pyval) (s : string) (w : world) :
  check_path self file_path w = (Ok p, w) →
  path_text p = Some s →
  is_ok (decode_if_str k config) = false ∨ is_Some (w_denied w !! s) →
  ∃ msg,
    save_config k self config file_path w
    = (Ok (VBool false),
       World (w_files w) (w_denied w) (w_loaders w)
             (w_stdout w ++ ["Error saving config: " +:+ msg])).
Proof.
  intros Hc Hp Hfail. rewrite (save_config_steps k self config file_path p) by done.
  destruct (decode_if_str k config) as [c|e]; [|by eexists].
  rewrite Hp. destruct Hfail as [Hd | [msg Hden]]; [done|].
  rewrite Hden. by eexists.
Qed.

(** X16.  A save whose printer fails after the file was opened returns
    [False] and prints the error, but the file no longer holds what it
    held: it holds what the printer wrote before it failed. *)
Theorem save_config_failure_after_open (k : loader_kind) (self : nat)
    (config file_path p c : pyval) (s text : string) (e : exn) (w : world) :
  check_path self file_path w = (Ok p, w) →
  path_text p = Some s →
  decode_if_str k config = Ok c →
  w_denied w !! s = None →
  emit (codec_of k) c = (text, Some e) →
  (save_config k self config file_path w).1 = Ok (VBool false) ∧
  w_files (save_config k self config file_path w).2 !! s = Some text ∧
  w_stdout (save_config k self config file_path w).2
  = w_stdout w ++ ["Error saving config: " +:+ exn_msg e].
Proof.
  intros Hc Hp Hd Hden He.
  rewrite (save_config_steps k self config file_path p) by done.
  rewrite Hd, Hp, Hden, He. simpl. by rewrite lookup_insert_eq.
Qed.

(** X17.  [save_config] with a resolved path never changes a loader (the
    path it was given is not remembered) nor the write permissions, and
    no file other than the one at the resolved path; a save that
    returns [True] prints nothing. *)
Theorem save_config_frame (k : loader_kind) (self : nat)
    (config file_path p : pyval) (w : world) :
  check_path self file_path w = (Ok p, w) →
  w_loaders (save_config k self config file_path w).2 = w_loaders w ∧
  w_denied (save_config k self config file_path w).2 = w_denied w ∧
  (∀ s, path_text p ≠ Some s →
        w_files (save_config k self config file_path w).2 !! s = w_files w !! s) ∧
  ((save_config k self config file_path w).1 = Ok (VBool true) →
   w_stdout (save_config k self config file_path w).2 = w_stdout w).
Proof.
  intros Hc. rewrite (save_config_steps k self config file_path p) by done.
  destruct (decode_if_str k config) as [c|e]; [|repeat split; done].
  destruct (path_text p) as [s0|] eqn:Hp; [|repeat split; done].
  destruct (w_denied w !! s0) as [msg|]; [repeat split; done|].
  destruct ((emit (codec_of k) c).2) as [e|]; simpl.
  - split; [done|]. split; [done|]. split; [|done].
    intros s Hs. rewrite lookup_insert_ne; [done|]. by intros ->.
  - split; [done|]. split; [done|]. split; [|done].
    intros s Hs. rewrite lookup_insert_ne; [done|]. by intros ->.
Qed.

End LoaderExtras.

(** On the example disk: the YAML file read by the JSON loader. *)
Lemma load_config_decode_error_witness :
  (path_text (VStr "config.yaml") = Some "config.yaml" ∧
   w_files Examples.disk !! "config.yaml" = Some Examples.yaml_text ∧
   parse (codec_of (Library := Fragment.library) Json) Examples.yaml_text
   = Raise Fragment.unsupported) ∧
  (ConfigLoaderBase.load_config (lib := Fragment.library) Json 0
     (VStr "config.yaml") Examples.disk).1 = Raise Fragment.unsupported.
Proof.
  split; [repeat split; vm_compute; reflexivity|].
  apply (load_config_decode_error (lib := Fragment.library) Json 0 (VStr "config.yaml")
           "config.yaml" Examples.yaml_text);
    vm_compute; reflexivity.
Defined.

(** On the example disk: [save_config(cfg, 123)]. *)
Lemma save_config_unresolved_path_witness :
  (is_none (VInt 123) = false ∧ is_str_or_path (VInt 123) = false) ∧
  ConfigLoaderBase.save_config (lib := Fragment.library)
      (interp := Fragment.interpreter) Yaml 0 Examples.key_value
    (VInt 123) Examples.disk
  = (Raise (Exn AssertionError "File path must be str or path"), Examples.disk).
Proof.
  split; [split; reflexivity|].
  apply (save_config_unresolved_path (lib := Fragment.library)
           (interp := Fragment.interpreter) Yaml 0
           Examples.key_value (VInt 123) Examples.disk); reflexivity.
Defined.

(** On the example disk: a save to the path that refuses writing. *)
Lemma save_config_failure_before_open_witness :
  (ConfigLoaderBase.check_path 0 (VStr "locked.json") Examples.disk
     = (Ok (VStr "locked.json"), Examples.disk) ∧
   path_text (VStr "locked.json") = Some "locked.json" ∧
   is_Some (w_denied Examples.disk !! "locked.json")) ∧
  ∃ msg,
    ConfigLoaderBase.save_config (lib := Fragment.library)
      (interp := Fragment.interpreter) Json 0 Examples.key_value
      (VStr "locked.json") Examples.disk
    = (Ok (VBool false),
       World (w_files Examples.disk) (w_denied Examples.disk) (w_loaders Examples.disk)
             (w_stdout Examples.disk ++ ["Error saving config: " +:+ msg])).
Proof.
  assert (is_Some (w_denied Examples.disk !! "locked.json")) as Hden
    by (vm_compute; eauto).
  split; [split; [reflexivity|split; [reflexivity|exact Hden]]|].
  apply (save_config_failure_before_open (lib := Fragment.library)
           (interp := Fragment.interpreter) Json 0
           Examples.key_value (VStr "locked.json") (VStr "locked.json") "locked.json"
           Examples.disk eq_refl eq_refl (or_intror Hden)).
Defined.

(** On the example disk: a value the concrete printer refuses, saved
    over the JSON file. *)
Lemma save_config_failure_after_open_witness :
  (ConfigLoaderBase.check_path 0 (VStr "config.json") Examples.disk
     = (Ok (VStr "config.json"), Examples.disk) ∧
   path_text (VStr "config.json") = Some "config.json" ∧
   ConfigLoaderBase.decode_if_str (lib := Fragment.library)
      (interp := Fragment.interpreter) Json (VList [])
     = Ok (VList []) ∧
   w_denied Examples.disk !! "config.json" = None ∧
   emit (codec_of (Library := Fragment.library) Json) (VList [])
     = (EmptyString, Some Fragment.unsupported)) ∧
  w_files (ConfigLoaderBase.save_config (lib := Fragment.library)
      (interp := Fragment.interpreter) Json 0 (VList [])
             (VStr "config.json") Examples.disk).2 !! "config.json"
  = Some EmptyString.
Proof.
  split; [repeat split; vm_compute; reflexivity|].
  apply (proj1 (proj2
    (save_config_failure_after_open (lib := Fragment.library)
           (interp := Fragment.interpreter) Json 0 (VList [])
       (VStr "config.json") (VStr "config.json") (VList []) "config.json" EmptyString
       Fragment.unsupported Examples.disk eq_refl eq_refl eq_refl eq_refl eq_refl))).
Defined.

(** On the example disk: a JSON save to a new path. *)
Lemma save_config_frame_witness :
  ConfigLoaderBase.check_path 0 (VStr "new.json") Examples.disk
    = (Ok (VStr "new.json"), Examples.disk) ∧
  w_loaders (ConfigLoaderBase.save_config (lib := Fragment.library)
      (interp := Fragment.interpreter) Json 0
               Examples.key_value (VStr "new.json") Examples.disk).2
  = w_loaders Examples.disk.
Proof.
  split; [reflexivity|].
  apply (proj1 (save_config_frame (lib := Fragment.library)
           (interp := Fragment.interpreter) Json 0 Examples.key_value
                  (VStr "new.json") (VStr "new.json") Examples.disk eq_refl)).
Defined.

(** ** Further properties: the store with its loader *)

Section StoreExtras.
Context {lib : Library} {interp : Interpreter}.
Import ConfigLoaderBase ConfigManager Store.

#[local] Ltac str_neq :=
  let E := fresh in intros E; vm_compute in E; discriminate E.

Lemma unresolved_ne_fields o n :
  constructed o → unresolved o n →
  n ≠ config_data_attr ∧ n ≠ initialized_attr ∧ n ≠ config_file_type_attr ∧
  n ≠ config_file_path_attr ∧ n ≠ config_loader_attr.
Proof.
  intros [_ [m Hd] [? Hi] [? Ht] [? Hp] [? Hl]] [_ Hn].
  repeat split; intros ->; congruence.
Qed.

(** X19.  After a load that decodes a non-empty mapping [m], the store
    reads like [m]: [to_dict] returns it, [len] is its size, [in] and
    keyed reads follow it (a key that is not in [m] raises [KeyError],
    whatever the store held before), and a key reads as an attribute too
    when normal lookup did not resolve its name on the store (no
    instance attribute, nothing in the class body, nothing from the
    interpreter or [object]). *)
Theorem loaded_keys_are_readable (o : gmap string pyval) (w : world)
    (loader file_path : pyval) (k : loader_kind) (l : nat) (m : gmap string pyval) :
  constructed o →
  is_str_or_path (effective file_path (current_path o)) = true →
  effective loader (current_loader o) = VLoader k l →
  (load_config k l (effective file_path (current_path o)) w).1 = Ok (VDict m) →
  m ≠ ∅ →
  to_dict (store_after_load loader file_path o w) = Ok (VDict m) ∧
  __len__ (store_after_load loader file_path o w) = Ok (size m) ∧
  (∀ key, __contains__ (store_after_load loader file_path o w) key
          = Ok (bool_decide (is_Some (m !! key)))) ∧
  (∀ key v, m !! key = Some v →
     __getitem__ (store_after_load loader file_path o w) key = Ok v ∧
     (unresolved o key →
        getattr (store_after_load loader file_path o w) key = Ok v)) ∧
  (∀ key, m !! key = None →
     raises (__getitem__ (store_after_load loader file_path o w) key) KeyError).
Proof.
  intros Hc Hvalid Hloader Hdec Hne. unfold store_after_load.
  rewrite (load_config_from_file_result o w loader file_path k l) by done.
  cbv zeta.
  destruct (load_config k l (effective file_path (current_path o)) w) as [r w1].
  simpl in Hdec. subst r. simpl.
  assert (size m ≠ 0) as Hsz by (by rewrite map_size_empty_iff).
  destruct (size m) as [|n] eqn:Hs; [done|]. simpl.
  set (o' := <[initialized_attr := VBool true]> _).
  assert (Hd : o' !! config_data_attr = Some (VDict m)).
  { unfold o'. rewrite lookup_insert_ne by str_neq. by rewrite lookup_insert_eq. }
  split; [by apply to_dict_dict|].
  split; [by rewrite (len_dict o' m), Hs|].
  split; [intros key; by apply contains_dict|]. split.
  - intros key v Hk. split; [by rewrite (getitem_dict o' m), Hk|].
    intros Hu. apply (getattr_hook_key o' m); [done| |done].
    destruct (unresolved_ne_fields o key Hc Hu) as (N1 & N2 & N3 & N4 & N5).
    destruct Hu as [Ht Hn]. split; [done|].
    unfold o', retargeted. by rewrite !lookup_insert_ne.
  - intros key Hk. rewrite (getitem_dict o' m), Hk by done. by eexists.
Qed.

(** X20.  The store's load has no handler of its own: once both setters
    have accepted their values, whatever the loader's [load_config]
    raises (assertion, missing file, parser error) is what the caller
    gets. *)
Theorem load_surfaces_loader_exception (o : gmap string pyval) (w : world)
    (loader file_path : pyval) (k : loader_kind) (l : nat) (e : exn) :
  constructed o →
  is_str_or_path (effective file_path (current_path o)) = true →
  effective loader (current_loader o) = VLoader k l →
  (load_config k l (effective file_path (current_path o)) w).1 = Raise e →
  load_outcome loader file_path o w = Raise e.
Proof.
  intros Hc Hvalid Hloader Hr. unfold load_outcome.
  rewrite (load_config_from_file_result o w loader file_path k l) by done.
  cbv zeta.
  destruct (load_config k l (effective file_path (current_path o)) w) as [r w1].
  simpl in Hr. by subst r.
Qed.

(** X21.  A path argument that is false as a truth value ([None], the
    empty string, [0], [False], an empty list or dict) is ignored by
    load and by save, which carry on with the stored path exactly as if
    no argument had been given; the same holds for the loader argument
    of load. *)
Theorem falsy_arguments_are_ignored (loader file_path : pyval) (s : state) :
  truthy file_path = false →
  load_config_from_file loader file_path s = load_config_from_file loader VNone s ∧
  save_config_to_file file_path s = save_config_to_file VNone s ∧
  (truthy loader = false →
     load_config_from_file loader file_path s = load_config_from_file VNone VNone s).
Proof.
  intros Hf. unfold load_config_from_file, save_config_to_file, py_or.
  rewrite Hf. simpl. split; [done|]. split; [done|]. by intros ->.
Qed.

(** X22.  A save that goes through writes the printed data to the file
    at the effective path and makes that path the store's current path;
    no other attribute of the store changes. *)
Theorem save_writes_data_to_effective_path (o : gmap string pyval) (w : world)
    (file_path : pyval) (k : loader_kind) (l : nat) (s text : string) :
  constructed o →
  path_text (effective file_path (current_path o)) = Some s →
  current_loader o = VLoader k l →
  w_denied w !! s = None →
  emit (codec_of k) (current_data o) = (text, None) →
  w_files (st_world (save_config_to_file file_path (State o w)).2) !! s = Some text ∧
  current_path (st_self (save_config_to_file file_path (State o w)).2)
  = effective file_path (current_path o) ∧
  (∀ name, name ≠ config_file_path_attr →
     st_self (save_config_to_file file_path (State o w)).2 !! name = o !! name).
Proof.
  intros Hc Hp Hloader Hden He.
  assert (is_str_or_path (effective file_path (current_path o)) = true) as Hvalid
    by (by destruct (effective file_path (current_path o))).
  destruct (data_is_dict o Hc) as [m Hd].
  assert (Hcd : current_data o = VDict m) by (unfold current_data; by rewrite Hd).
  rewrite (save_config_to_file_steps o w file_path k l) by done. cbv zeta.
  rewrite (save_config_writes k l (current_data o) _ s text) by (done || by rewrite Hcd).
  simpl. split; [by rewrite lookup_insert_eq|]. split.
  - unfold current_path at 1. by rewrite lookup_insert_eq.
  - intros name Hne. by rewrite lookup_insert_ne.
Qed.

(** X23.  Saving a store with non-empty data to a writable path and
    then loading with no argument brings back the same data, from the
    path the save was given, when the library's printer and parser
    agree on that data; the store is then initialized. *)
Theorem store_save_then_load (o : gmap string pyval) (w : world)
    (file_path : pyval) (k : loader_kind) (l : nat) (s text : string)
    (m : gmap string pyval) :
  constructed o →
  path_text (effective file_path (current_path o)) = Some s →
  current_loader o = VLoader k l →
  current_data o = VDict m →
  m ≠ ∅ →
  w_denied w !! s = None →
  emit (codec_of k) (VDict m) = (text, None) →
  parse (codec_of k) text = Ok (VDict m) →
  ∃ o1 w1,
    save_config_to_file file_path (State o w) = (Ok VNone, State o1 w1) ∧
    load_outcome VNone VNone o1 w1 = Ok VNone ∧
    current_data (store_after_load VNone VNone o1 w1) = VDict m ∧
    store_after_load VNone VNone o1 w1 !! initialized_attr = Some (VBool true).
Proof.
  intros Hc Hp Hloader Hdata Hne Hden He Hparse.
  assert (is_str_or_path (effective file_path (current_path o)) = true) as Hvalid
    by (by destruct (effective file_path (current_path o))).
  set (p := effective file_path (current_path o)) in *.
  exists (<[config_file_path_attr := p]> o), (set_files <[s := text]> w).
  split.
  { rewrite (save_config_to_file_steps o w file_path k l) by done. cbv zeta.
    fold p. rewrite Hdata.
    by rewrite (save_config_writes k l (VDict m) p s text). }
  set (o1 := <[config_file_path_attr := p]> o).
  set (w1 := set_files <[s := text]> w).
  assert (Hc1 : constructed o1).
  { unfold o1. apply constructed_insert; [done|str_neq|str_neq]. }
  assert (Hp1 : current_path o1 = p).
  { unfold current_path, o1. by rewrite lookup_insert_eq. }
  assert (Hl1 : current_loader o1 = VLoader k l).
  { unfold current_loader, o1. rewrite lookup_insert_ne by str_neq. apply Hloader. }
  assert (He1 : effective VNone (current_path o1) = p) by (by rewrite <- Hp1).
  assert (Hload : (load_config k l p w1).1 = Ok (VDict m)).
  { rewrite (load_config_reads k l p s text); [by rewrite Hparse|done|].
    unfold w1. simpl. by rewrite lookup_insert_eq. }
  unfold load_outcome, store_after_load.
  rewrite (load_config_from_file_result o1 w1 VNone VNone k l);
    [|done|by rewrite He1|done].
  cbv zeta. rewrite He1.
  destruct (load_config k l p w1) as [r w2]. simpl in Hload. subst r. simpl.
  assert (size m ≠ 0) as Hsz by (by rewrite map_size_empty_iff).
  destruct (size m) as [|n] eqn:Hs; [done|]. simpl.
  split; [done|]. split.
  - unfold current_data. rewrite lookup_insert_ne by str_neq.
    by rewrite lookup_insert_eq.
  - by rewrite lookup_insert_eq.
Qed.

(** X24.  What the class keeps true of a store: a new store has its
    five attributes, a dict as data and no attribute [__config], and
    keyed writes, loads, saves and every attribute assignment keep it
    so, whether they succeed or raise; excepted are the assignments to
    [__config], to the private data attribute and to the data
    descriptors of the interpreter ([__dict__], [__class__],
    [__weakref__]). *)
Theorem class_keeps_store_constructed :
  (∀ file_path config_loader_, constructed (new file_path config_loader_).2) ∧
  (∀ o key v, constructed o → constructed (__setitem__ key v o).2) ∧
  (∀ o name v, constructed o → name ≠ "__config" → name ≠ config_data_attr →
     interpreter_owned name = false →
     constructed (__setattr__ name v o).2) ∧
  (∀ loader file_path, preserves (load_config_from_file loader file_path)) ∧
  (∀ file_path, preserves (save_config_to_file file_path)).
Proof.
  split; [|split; [|split; [|split]]].
  - intros. rewrite new_fresh_store. apply fresh_store_constructed.
  - intros o key v Hc. by apply setitem_constructed.
  - intros o name v Hc Hn Hd Ho. by apply setattr_constructed.
  - apply load_config_from_file_preserves.
  - apply save_config_to_file_preserves.
Qed.

Lemma set_loaders_again self a w :
  set_loaders <[self := a]> (set_loaders <[self := a]> w) = set_loaders <[self := a]> w.
Proof. unfold set_loaders. simpl. by rewrite insert_insert_eq. Qed.

Lemma load_config_files k self file_path w :
  w_files (load_config k self file_path w).2 = w_files w.
Proof. by destruct (load_config_world k self file_path w) as [-> | [p ->]]. Qed.

Lemma load_config_again k self p s text w :
  path_text p = Some s →
  w_files w !! s = Some text →
  load_config k self p (load_config k self p w).2
  = (parse (codec_of k) text, (load_config k self p w).2).
Proof.
  intros Hp Hs.
  rewrite (load_config_reads k self p s text w) by done. simpl.
  rewrite (load_config_reads k self p s text) by done.
  f_equal. rewrite attrs_at_set, insert_insert_eq.
  unfold set_loaders. simpl. by rewrite insert_insert_eq.
Qed.

Lemma load_config_from_file_accepts o w loader file_path k l s text m :
  constructed o →
  path_text (effective file_path (current_path o)) = Some s →
  effective loader (current_loader o) = VLoader k l →
  w_files w !! s = Some text →
  parse (codec_of k) text = Ok (VDict m) →
  m ≠ ∅ →
  load_config_from_file loader file_path (State o w)
  = (Ok VNone,
     State (<[initialized_attr := VBool true]>
              (<[config_data_attr := VDict m]>
                 (retargeted (effective file_path (current_path o)) k l o)))
           (load_config k l (effective file_path (current_path o)) w).2).
Proof.
  intros Hc Hp Hloader Hs Hparse Hne.
  assert (is_str_or_path (effective file_path (current_path o)) = true) as Hvalid
    by (by destruct (effective file_path (current_path o))).
  assert (size m ≠ 0) as Hsz by (by rewrite map_size_empty_iff).
  rewrite (load_config_from_file_result o w loader file_path k l) by done.
  cbv zeta.
  rewrite (load_config_reads k l _ s text w) by done. rewrite Hparse. simpl.
  by destruct (size m).
Qed.

(** X25.  Loading again with no argument right after a successful load
    changes nothing: the second load succeeds and leaves the store, the
    loader and the file system exactly as the first one left them. *)
Theorem reload_is_idempotent (o : gmap string pyval) (w : world)
    (loader file_path : pyval) (k : loader_kind) (l : nat) (s text : string)
    (m : gmap string pyval) :
  constructed o →
  path_text (effective file_path (current_path o)) = Some s →
  effective loader (current_loader o) = VLoader k l →
  w_files w !! s = Some text →
  parse (codec_of k) text = Ok (VDict m) →
  m ≠ ∅ →
  load_config_from_file VNone VNone (load_config_from_file loader file_path (State o w)).2
  = (Ok VNone, (load_config_from_file loader file_path (State o w)).2).
Proof.
  intros Hc Hp Hloader Hs Hparse Hne.
  rewrite (load_config_from_file_accepts o w loader file_path k l s text m) by done.
  set (p := effective file_path (current_path o)) in *.
  simpl.
  set (o1 := <[initialized_attr := VBool true]> _).
  set (w1 := (load_config k l p w).2).
  destruct (retargeted_lookup p k l o) as (Hl & Ht & Hpp & _ & _).
  assert (Hc1 : constructed o1).
  { unfold o1. apply constructed_insert; [|str_neq|str_neq].
    apply constructed_insert; [|str_neq|done].
    unfold retargeted. repeat (apply constructed_insert; [|str_neq|str_neq]). done. }
  assert (Hp1 : current_path o1 = p).
  { unfold current_path, o1. rewrite !lookup_insert_ne by str_neq. by rewrite Hpp. }
  assert (Hl1 : current_loader o1 = VLoader k l).
  { unfold current_loader, o1. rewrite !lookup_insert_ne by str_neq. by rewrite Hl. }
  assert (He1 : effective VNone (current_path o1) = p) by (by rewrite <- Hp1).
  assert (Hf1 : w_files w1 !! s = Some text).
  { unfold w1. by rewrite load_config_files. }
  rewrite (load_config_from_file_accepts o1 w1 VNone VNone k l s text m);
    [|done|by rewrite He1|done..].
  rewrite He1. f_equal. f_equal.
  - assert (Hret : retargeted p k l o1 = o1).
    { unfold retargeted.
      rewrite (insert_id o1 config_file_path_attr p).
      2:{ unfold o1. rewrite !lookup_insert_ne by str_neq. done. }
      rewrite (insert_id o1 config_file_type_attr).
      2:{ unfold o1. rewrite !lookup_insert_ne by str_neq. done. }
      rewrite (insert_id o1 config_loader_attr); [done|].
      unfold o1. rewrite !lookup_insert_ne by str_neq. done. }
    rewrite Hret.
    rewrite (insert_id o1 config_data_attr).
    2:{ unfold o1. rewrite lookup_insert_ne by str_neq. by rewrite lookup_insert_eq. }
    rewrite (insert_id o1 initialized_attr); [done|].
    unfold o1. by rewrite lookup_insert_eq.
  - unfold w1. by rewrite (load_config_again k l p s text w).
Qed.

End StoreExtras.

(** On the example store and disk: a load without arguments. *)
Lemma loaded_keys_are_readable_witness :
  (Store.constructed Examples.store ∧
   is_str_or_path (Store.effective VNone (Store.current_path Examples.store)) = true ∧
   Store.effective VNone (Store.current_loader Examples.store) = VLoader Json 0 ∧
   (ConfigLoaderBase.load_config (lib := Fragment.library) Json 0
      (Store.effective VNone (Store.current_path Examples.store)) Examples.disk).1
   = Ok (VDict {[ "key" := VStr "value" ]}) ∧
   ({[ "key" := VStr "value" ]} : gmap string pyval) ≠ ∅) ∧
  ConfigManager.__getitem__
    (Store.store_after_load (lib := Fragment.library)
      (interp := Fragment.interpreter) VNone VNone Examples.store
       Examples.disk) "key" = Ok (VStr "value").
Proof.
  assert (Hv : is_str_or_path
                 (Store.effective VNone (Store.current_path Examples.store)) = true)
    by (vm_compute; reflexivity).
  assert (Hl : Store.effective VNone (Store.current_loader Examples.store)
               = VLoader Json 0) by (vm_compute; reflexivity).
  assert (Hd : (ConfigLoaderBase.load_config (lib := Fragment.library) Json 0
                  (Store.effective VNone (Store.current_path Examples.store))
                  Examples.disk).1 = Ok (VDict {[ "key" := VStr "value" ]}))
    by (vm_compute; reflexivity).
  assert (Hne : ({[ "key" := VStr "value" ]} : gmap string pyval) ≠ ∅)
    by apply map_non_empty_singleton.
  split; [split; [apply examples_store_constructed|
                  split; [exact Hv|split; [exact Hl|split; [exact Hd|exact Hne]]]]|].
  apply (proj1 (proj1 (proj2 (proj2 (proj2
           (loaded_keys_are_readable (lib := Fragment.library)
           (interp := Fragment.interpreter) Examples.store
              Examples.disk VNone VNone Json 0 {[ "key" := VStr "value" ]}
              examples_store_constructed Hv Hl Hd Hne)))) "key" (VStr "value") eq_refl)).
Defined.

(** On the example store and disk: a load of a missing file. *)
Lemma load_surfaces_loader_exception_witness :
  (Store.constructed Examples.store ∧
   is_str_or_path
     (Store.effective (VStr "absent.json") (Store.current_path Examples.store)) = true ∧
   Store.effective VNone (Store.current_loader Examples.store) = VLoader Json 0 ∧
   (ConfigLoaderBase.load_config (lib := Fragment.library) Json 0
      (Store.effective (VStr "absent.json") (Store.current_path Examples.store))
      Examples.disk).1
   = Raise (Exn FileNotFoundError "File not found: absent.json")) ∧
  Store.load_outcome (lib := Fragment.library)
      (interp := Fragment.interpreter) VNone (VStr "absent.json")
    Examples.store Examples.disk
  = Raise (Exn FileNotFoundError "File not found: absent.json").
Proof.
  assert (Hr : (ConfigLoaderBase.load_config (lib := Fragment.library) Json 0
                  (Store.effective (VStr "absent.json")
                     (Store.current_path Examples.store)) Examples.disk).1
               = Raise (Exn FileNotFoundError "File not found: absent.json"))
    by (vm_compute; reflexivity).
  assert (Hl : Store.effective VNone (Store.current_loader Examples.store)
               = VLoader Json 0) by (vm_compute; reflexivity).
  split; [split; [apply examples_store_constructed|
                  split; [reflexivity|split; [exact Hl|exact Hr]]]|].
  apply (load_surfaces_loader_exception (lib := Fragment.library)
           (interp := Fragment.interpreter) Examples.store
           Examples.disk VNone (VStr "absent.json") Json 0 _
           examples_store_constructed eq_refl Hl Hr).
Defined.

(** On the example store and disk: the empty string as path argument. *)
Lemma falsy_arguments_are_ignored_witness :
  truthy (VStr EmptyString) = false ∧
  ConfigManager.load_config_from_file (lib := Fragment.library)
      (interp := Fragment.interpreter) VNone
    (VStr EmptyString) (ConfigManager.State Examples.store Examples.disk)
  = ConfigManager.load_config_from_file (lib := Fragment.library)
      (interp := Fragment.interpreter) VNone VNone
      (ConfigManager.State Examples.store Examples.disk).
Proof.
  split; [reflexivity|].
  apply (proj1 (falsy_arguments_are_ignored (lib := Fragment.library)
           (interp := Fragment.interpreter) VNone
                  (VStr EmptyString)
                  (ConfigManager.State Examples.store Examples.disk) eq_refl)).
Defined.

(** On the example store after [store['key'] = 'a']: a save to a new
    path. *)
Lemma save_writes_data_to_effective_path_witness :
  (Store.constructed Examples.store_a ∧
   path_text (Store.effective (VStr "out.json") (Store.current_path Examples.store_a))
     = Some "out.json" ∧
   Store.current_loader Examples.store_a = VLoader Json 0 ∧
   w_denied Examples.disk !! "out.json" = None ∧
   emit (codec_of (Library := Fragment.library) Json)
     (Store.current_data Examples.store_a)
   = ((Fragment.json_emit (VDict {[ "key" := VStr "a" ]})).1, None)) ∧
  Store.current_path
    (ConfigManager.st_self
       (ConfigManager.save_config_to_file (lib := Fragment.library)
      (interp := Fragment.interpreter) (VStr "out.json")
          (ConfigManager.State Examples.store_a Examples.disk)).2)
  = VStr "out.json".
Proof.
  assert (Hl : Store.current_loader Examples.store_a = VLoader Json 0)
    by (vm_compute; reflexivity).
  assert (Hd : w_denied Examples.disk !! "out.json" = None)
    by (vm_compute; reflexivity).
  assert (He : emit (codec_of (Library := Fragment.library) Json)
                 (Store.current_data Examples.store_a)
               = ((Fragment.json_emit (VDict {[ "key" := VStr "a" ]})).1, None))
    by (vm_compute; reflexivity).
  split; [split; [apply examples_store_a_constructed|
                  split; [reflexivity|split; [exact Hl|split; [exact Hd|exact He]]]]|].
  apply (proj1 (proj2
           (save_writes_data_to_effective_path (lib := Fragment.library)
           (interp := Fragment.interpreter)
              Examples.store_a Examples.disk (VStr "out.json") Json 0 "out.json" _
              examples_store_a_constructed eq_refl Hl Hd He))).
Defined.

(** On the example store after [store['key'] = 'a']: a save to a new
    path, then a load. *)
Lemma store_save_then_load_witness :
  (Store.constructed Examples.store_a ∧
   path_text (Store.effective (VStr "out.json") (Store.current_path Examples.store_a))
     = Some "out.json" ∧
   Store.current_loader Examples.store_a = VLoader Json 0 ∧
   Store.current_data Examples.store_a = VDict {[ "key" := VStr "a" ]} ∧
   ({[ "key" := VStr "a" ]} : gmap string pyval) ≠ ∅ ∧
   w_denied Examples.disk !! "out.json" = None ∧
   emit (codec_of (Library := Fragment.library) Json) (VDict {[ "key" := VStr "a" ]})
   = ((Fragment.json_emit (VDict {[ "key" := VStr "a" ]})).1, None) ∧
   parse (codec_of (Library := Fragment.library) Json)
     (Fragment.json_emit (VDict {[ "key" := VStr "a" ]})).1
   = Ok (VDict {[ "key" := VStr "a" ]})) ∧
  ∃ o1 w1,
    ConfigManager.save_config_to_file (lib := Fragment.library)
      (interp := Fragment.interpreter) (VStr "out.json")
      (ConfigManager.State Examples.store_a Examples.disk)
    = (Ok VNone, ConfigManager.State o1 w1) ∧
    Store.current_data
      (Store.store_after_load (lib := Fragment.library)
      (interp := Fragment.interpreter) VNone VNone o1 w1)
    = VDict {[ "key" := VStr "a" ]}.
Proof.
  assert (Hl : Store.current_loader Examples.store_a = VLoader Json 0)
    by (vm_compute; reflexivity).
  assert (Hcd : Store.current_data Examples.store_a = VDict {[ "key" := VStr "a" ]})
    by (vm_compute; reflexivity).
  assert (Hne : ({[ "key" := VStr "a" ]} : gmap string pyval) ≠ ∅)
    by apply map_non_empty_singleton.
  assert (Hd : w_denied Examples.disk !! "out.json" = None)
    by (vm_compute; reflexivity).
  assert (He : emit (codec_of (Library := Fragment.library) Json)
                 (VDict {[ "key" := VStr "a" ]})
               = ((Fragment.json_emit (VDict {[ "key" := VStr "a" ]})).1, None))
    by (vm_compute; reflexivity).
  assert (Hp : parse (codec_of (Library := Fragment.library) Json)
                 (Fragment.json_emit (VDict {[ "key" := VStr "a" ]})).1
               = Ok (VDict {[ "key" := VStr "a" ]}))
    by (vm_compute; reflexivity).
  split.
  { split; [apply examples_store_a_constructed|].
    split; [reflexivity|]. split; [exact Hl|]. split; [exact Hcd|].
    split; [exact Hne|]. split; [exact Hd|]. split; [exact He|exact Hp]. }
  destruct (store_save_then_load (lib := Fragment.library)
           (interp := Fragment.interpreter) Examples.store_a
              Examples.disk (VStr "out.json") Json 0 "out.json" _
              {[ "key" := VStr "a" ]} examples_store_a_constructed eq_refl Hl Hcd Hne
              Hd He Hp) as (o1 & w1 & Hsave & _ & Hdata & _).
  exists o1, w1. split; [exact Hsave|exact Hdata].
Defined.

(** On the example store and disk: a load without arguments, twice. *)
Lemma reload_is_idempotent_witness :
  (Store.constructed Examples.store ∧
   path_text (Store.effective VNone (Store.current_path Examples.store))
     = Some "config.json" ∧
   Store.effective VNone (Store.current_loader Examples.store) = VLoader Json 0 ∧
   w_files Examples.disk !! "config.json" = Some Examples.json_text ∧
   parse (codec_of (Library := Fragment.library) Json) Examples.json_text
     = Ok (VDict {[ "key" := VStr "value" ]}) ∧
   ({[ "key" := VStr "value" ]} : gmap string pyval) ≠ ∅) ∧
  ConfigManager.load_config_from_file (lib := Fragment.library)
      (interp := Fragment.interpreter) VNone VNone
    (ConfigManager.load_config_from_file (lib := Fragment.library)
      (interp := Fragment.interpreter) VNone VNone
       (ConfigManager.State Examples.store Examples.disk)).2
  = (Ok VNone,
     (ConfigManager.load_config_from_file (lib := Fragment.library)
      (interp := Fragment.interpreter) VNone VNone
        (ConfigManager.State Examples.store Examples.disk)).2).
Proof.
  assert (Hp : path_text (Store.effective VNone (Store.current_path Examples.store))
               = Some "config.json") by (vm_compute; reflexivity).
  assert (Hl : Store.effective VNone (Store.current_loader Examples.store)
               = VLoader Json 0) by (vm_compute; reflexivity).
  assert (Hf : w_files Examples.disk !! "config.json" = Some Examples.json_text)
    by (vm_compute; reflexivity).
  assert (Hparse : parse (codec_of (Library := Fragment.library) Json)
                     Examples.json_text = Ok (VDict {[ "key" := VStr "value" ]}))
    by (vm_compute; reflexivity).
  assert (Hne : ({[ "key" := VStr "value" ]} : gmap string pyval) ≠ ∅)
    by apply map_non_empty_singleton.
  split; [split; [apply examples_store_constructed|
                  split; [exact Hp|split; [exact Hl|split; [exact Hf|
                  split; [exact Hparse|exact Hne]]]]]|].
  apply (reload_is_idempotent (lib := Fragment.library)
           (interp := Fragment.interpreter) Examples.store Examples.disk
           VNone VNone Json 0 "config.json" Examples.json_text
           {[ "key" := VStr "value" ]} examples_store_constructed Hp Hl Hf Hparse Hne).
Defined.
